(** * Add-on installer of the docker bootstrap helper

    A shallow embedding of [pkg/bootstrap/docker/openshift/admin.go]:
    [imageFormat], [InstallRegistry], [InstallRouter] and [catFiles],
    together with the part of the Go runtime they run against (the [os]
    file calls and [io.Copy]), and the properties of the installer that the
    specification states. *)

From stdpp Require Import base option list gmap strings.
From Stdlib Require Import Strings.Byte Numbers.DecimalString.

Local Open Scope string_scope.

(** ** Go error values *)

(** The [syscall.Errno] values the file calls of this program can meet. *)
Inductive errno := ENOENT | EACCES | EISDIR | ENOSPC | EIO.

(** [metav1.StatusReason] of an API status error, as far as
    [apierrors.IsNotFound] tells them apart. *)
Inductive StatusReason :=
  | StatusReasonNotFound
  | StatusReasonAlreadyExists
  | StatusReasonForbidden
  | StatusReasonUnknown.

(** A non-nil Go [error].  [BootstrapError msg cause] is the value built by
    [errors.NewError(msg).WithCause(cause)]. *)
Inductive Err :=
  | EOF
  | ErrShortWrite
  | PathError (op path : string) (e : errno)
  | StatusError (reason : StatusReason) (message : string)
  | BootstrapError (msg : string) (cause : Err)
  | OtherError (msg : string).

(** The [error] interface: [None] is [nil]. *)
Abbreviation error := (option Err).

(** A Go result pair [(v, err)] in which exactly one side is set. *)
Inductive res (A : Type) :=
  | Ok (a : A)
  | Fail (e : Err).
Arguments Ok {A} a.
Arguments Fail {A} e.

(** The [err] half of a result pair. *)
Definition res_err {A} (r : res A) : error :=
  match r with
  | Ok _ => None
  | Fail e => Some e
  end.

(** [apierrors.IsNotFound]. *)
Definition IsNotFound (e : Err) : bool :=
  match e with
  | StatusError StatusReasonNotFound _ => true
  | _ => false
  end.

(** ** A state monad with divergence

    [M S A] is a computation over a state [S] that returns an [A], or does
    not return at all ([None]: the bounded copy loop ran out of steps). *)

Definition M (S A : Type) : Type := S -> option (A * S).

Definition ret {S A} (a : A) : M S A := fun s => Some (a, s).

Definition bind {S A B} (m : M S A) (k : A -> M S B) : M S B :=
  fun s =>
    match m s with
    | Some (a, s') => k a s'
    | None => None
    end.

(** The state a computation ends in; the starting state if it does not
    return. *)
Definition state_of {S A} (m : M S A) (s : S) : S :=
  match m s with
  | Some (_, s') => s'
  | None => s
  end.

Declare Scope go_scope.
Delimit Scope go_scope with go.
Notation "'let*' x ':=' c 'in' k" := (bind c (fun x => k))
  (at level 10, x pattern, c at level 100, k at level 200) : go_scope.
Local Open Scope go_scope.

(** ** The file system

    Files are byte strings held by path.  The four fault tables say which
    calls the operating system refuses: [create_fault] and [open_fault] for
    a path that cannot be created or opened, [read_fault p = Some (k, e)]
    for a file whose bytes from offset [k] on cannot be read, and
    [write_fault p = Some (cap, e)] for a file that cannot hold more than
    [cap] bytes. *)

Record FS := mkFS {
  files : gmap string (list byte);
  create_fault : string -> option errno;
  open_fault : string -> option errno;
  read_fault : string -> option (nat * errno);
  write_fault : string -> option (nat * errno)
}.

Definition set_files (s : FS) (m : gmap string (list byte)) : FS :=
  {| files := m;
     create_fault := create_fault s;
     open_fault := open_fault s;
     read_fault := read_fault s;
     write_fault := write_fault s |}.

(** The bytes held at a path; a path with no file holds none. *)
Definition content (s : FS) (name : string) : list byte :=
  default [] (files s !! name).

(** An open [*os.File]: the path it was opened at and its offset. *)
Record File := mkFile {
  f_name : string;
  f_off : nat
}.

Definition advance (f : File) (n : nat) : File :=
  {| f_name := f_name f; f_off := f_off f + n |}.

(** [os.Create]: open for writing, creating the file or truncating it. *)
Definition fs_Create (name : string) (s : FS) : res File * FS :=
  match create_fault s name with
  | Some e => (Fail (PathError "open" name e), s)
  | None => (Ok (mkFile name 0), set_files s (<[name := []]> (files s)))
  end.

(** [os.Open]: open an existing file for reading. *)
Definition fs_Open (name : string) (s : FS) : res File :=
  match open_fault s name with
  | Some e => Fail (PathError "open" name e)
  | None =>
      match files s !! name with
      | Some _ => Ok (mkFile name 0)
      | None => Fail (PathError "open" name ENOENT)
      end
  end.

(** [File.Read] into a buffer of [n] bytes: the bytes read, the error
    ([EOF] at the end of the file) and the advanced handle. *)
Definition fs_Read (f : File) (n : nat) (s : FS) : list byte * error * File :=
  let avail := drop (f_off f) (content s (f_name f)) in
  match avail with
  | [] => ([], Some EOF, f)
  | _ :: _ =>
      match read_fault s (f_name f) with
      | Some (k, e) =>
          if bool_decide (k <= f_off f)
          then ([], Some (PathError "read" (f_name f) e), f)
          else
            let chunk := take (n `min` (k - f_off f)) avail in
            (chunk, None, advance f (length chunk))
      | None =>
          let chunk := take n avail in
          (chunk, None, advance f (length chunk))
      end
  end.

(** Bytes [b] stored at offset [off] of [old], which is padded with zero
    bytes when [off] lies beyond its end. *)
Definition write_at (off : nat) (b old : list byte) : list byte :=
  take off old ++ replicate (off - length old) x00 ++ b
    ++ drop (off + length b) old.

(** [File.Write]: the number of bytes written, the error, the advanced
    handle and the new file system.  A file at its capacity takes the bytes
    that fit and reports the fault. *)
Definition fs_Write (f : File) (b : list byte) (s : FS)
  : nat * error * File * FS :=
  let name := f_name f in
  let fit :=
    match write_fault s name with
    | Some (cap, _) => take (cap - f_off f) b
    | None => b
    end in
  let s' :=
    match fit with
    | [] => s
    | _ :: _ =>
        set_files s (<[name := write_at (f_off f) fit (content s name)]> (files s))
    end in
  let ew :=
    match write_fault s name with
    | Some (cap, e) =>
        if bool_decide (length fit < length b)
        then Some (PathError "write" name e) else None
    | None => None
    end in
  (length fit, ew, advance f (length fit), s').

(** The size of the buffer [io.Copy] allocates. *)
Definition copyBufSize : nat := 32 * 1024.

(** The loop of [io.Copy(dst, src)]: read a buffer from [src], write it to
    [dst], until [src] is at its end or a call fails.  [fuel] bounds the
    number of rounds. *)
Fixpoint copyBuffer (fuel : nat) (dst src : File) (written : nat) (s : FS)
  : option (nat * error * File * FS) :=
  match fuel with
  | O => None
  | S fuel' =>
      let '(buf, er, src') := fs_Read src copyBufSize s in
      let nr := length buf in
      let '(written', ew, dst', s') :=
        if bool_decide (0 < nr)
        then
          let '(nw, ew, dst', s') := fs_Write dst buf s in
          let written' := if bool_decide (0 < nw) then written + nw else written in
          let ew' :=
            match ew with
            | Some _ => ew
            | None => if bool_decide (nr ≠ nw) then Some ErrShortWrite else None
            end in
          (written', ew', dst', s')
        else (written, None, dst, s) in
      match ew with
      | Some _ => Some (written', ew, dst', s')
      | None =>
          match er with
          | Some EOF => Some (written', None, dst', s')
          | Some _ => Some (written', er, dst', s')
          | None => copyBuffer fuel' dst' src' written' s'
          end
      end
  end.

(** What [catFiles] asks of the file system, with the outcome of each call. *)
Inductive FsEvent :=
  | FsCreate (name : string) (err : error)
  | FsOpen (name : string) (err : error)
  | FsCopy (dst src : string) (written : nat) (err : error)
  | FsClose (name : string).

(** The state [catFiles] runs in: the file system and the calls made. *)
Record FsSt := mkFsSt {
  fs : FS;
  fslog : list FsEvent
}.

Definition os_Create (name : string) : M FsSt (res File) :=
  fun st =>
    let '(r, s') := fs_Create name (fs st) in
    Some (r, mkFsSt s' (fslog st ++ [FsCreate name (res_err r)])).

Definition os_Open (name : string) : M FsSt (res File) :=
  fun st =>
    let r := fs_Open name (fs st) in
    Some (r, mkFsSt (fs st) (fslog st ++ [FsOpen name (res_err r)])).

(** [io.Copy(dst, src)], returning also the advanced [dst]. *)
Definition io_Copy (fuel : nat) (dst src : File) : M FsSt (nat * error * File) :=
  fun st =>
    match copyBuffer fuel dst src 0 (fs st) with
    | Some (written, err, dst', s') =>
        Some ((written, err, dst'),
              mkFsSt s' (fslog st ++ [FsCopy (f_name dst) (f_name src) written err]))
    | None => None
    end.

Definition file_Close (f : File) : M FsSt unit :=
  fun st => Some (tt, mkFsSt (fs st) (fslog st ++ [FsClose (f_name f)])).

(** ** catFiles *)

(** The [for _, f := range src] loop of [catFiles]; [out] is the open
    destination and [err] the function's [err] variable. *)
Fixpoint catFiles_loop (fuel : nat) (out : File) (err : error)
    (src : list string) : M FsSt error :=
  match src with
  | [] => ret None
  | f :: src' =>
      let* r := os_Open f in
      let oerr := res_err r in
      match r with
      | Fail _ => ret err
      | Ok in_ =>
          let* (_, err, out) := io_Copy fuel out in_ in
          let* _ := file_Close in_ in
          match err with
          | Some _ => ret err
          | None => catFiles_loop fuel out err src'
          end
      end
  end.

(** [catFiles(dest, src...)]; the deferred [out.Close()] runs when the loop
    has returned. *)
Definition catFiles (fuel : nat) (dest : string) (src : list string)
  : M FsSt error :=
  let* r := os_Create dest in
  let err := res_err r in
  match r with
  | Fail _ => ret err
  | Ok out =>
      let* result := catFiles_loop fuel out err src in
      let* _ := file_Close out in
      ret result
  end.

(** ** The installer's collaborators *)

(** [imageFormat]: [fmt.Sprintf] of the template with one [%s] verb. *)
Definition imageFormat (tag : string) : string :=
  "openshift/origin-${component}:" +:+ tag.

Definition svcDockerRegistry : string := "docker-registry".
Definition svcRouter : string := "router".
Definition masterConfigDir : string :=
  "/var/lib/origin/openshift.local.config/master".

(** [serviceaccount.MakeUsername]: the user name of a service account. *)
Definition MakeUsername (namespace name : string) : string :=
  "system:serviceaccount:" +:+ namespace +:+ ":" +:+ name.

(** The line feed of the [glog] format strings. *)
Definition nl : string :=
  String (Ascii.Ascii false true false true false false false false) EmptyString.

(** [variable.ImageTemplate]. *)
Record ImageTemplate := mkImageTemplate {
  Format : string;
  Latest : bool
}.

(** The fields of [registry.RegistryConfig] the installer sets; the others
    keep their zero value. *)
Record RegistryConfig := mkRegistryConfig {
  rg_Name : string;
  rg_Type : string;
  rg_ImageTemplate : ImageTemplate;
  rg_Ports : string;
  rg_Replicas : Z;
  rg_Labels : string;
  rg_Volume : string;
  rg_ServiceAccount : string
}.

(** The fields of [router.RouterConfig] the installer sets. *)
Record RouterConfig := mkRouterConfig {
  rt_Name : string;
  rt_Type : string;
  rt_ImageTemplate : ImageTemplate;
  rt_Ports : string;
  rt_Replicas : Z;
  rt_Labels : string;
  rt_Credentials : string;
  rt_DefaultCertificate : string;
  rt_StatsPort : Z;
  rt_StatsUsername : string;
  rt_HostNetwork : bool;
  rt_HostPorts : bool;
  rt_ServiceAccount : string
}.

(** The assignment [cfg.ImageTemplate.Format = format]. *)
Definition rg_set_Format (cfg : RegistryConfig) (format : string) : RegistryConfig :=
  {| rg_Name := rg_Name cfg;
     rg_Type := rg_Type cfg;
     rg_ImageTemplate :=
       {| Format := format; Latest := Latest (rg_ImageTemplate cfg) |};
     rg_Ports := rg_Ports cfg;
     rg_Replicas := rg_Replicas cfg;
     rg_Labels := rg_Labels cfg;
     rg_Volume := rg_Volume cfg;
     rg_ServiceAccount := rg_ServiceAccount cfg |}.

Definition rt_set_Format (cfg : RouterConfig) (format : string) : RouterConfig :=
  {| rt_Name := rt_Name cfg;
     rt_Type := rt_Type cfg;
     rt_ImageTemplate :=
       {| Format := format; Latest := Latest (rt_ImageTemplate cfg) |};
     rt_Ports := rt_Ports cfg;
     rt_Replicas := rt_Replicas cfg;
     rt_Labels := rt_Labels cfg;
     rt_Credentials := rt_Credentials cfg;
     rt_DefaultCertificate := rt_DefaultCertificate cfg;
     rt_StatsPort := rt_StatsPort cfg;
     rt_StatsUsername := rt_StatsUsername cfg;
     rt_HostNetwork := rt_HostNetwork cfg;
     rt_HostPorts := rt_HostPorts cfg;
     rt_ServiceAccount := rt_ServiceAccount cfg |}.

(** [kapi.ServiceAccount], of which the installer sets the name. *)
Record ServiceAccount := mkServiceAccount {
  sa_Name : string
}.

(** [admin.SignerCertOptions] and [admin.CreateServerCertOptions]; the
    [Output] buffer is local to the installer and never read. *)
Record SignerCertOptions := mkSignerCertOptions {
  sg_CertFile : string;
  sg_KeyFile : string;
  sg_SerialFile : string
}.

Record CreateServerCertOptions := mkCreateServerCertOptions {
  cc_SignerCertOptions : SignerCertOptions;
  cc_Overwrite : bool;
  cc_Hostnames : list string;
  cc_CertFile : string;
  cc_KeyFile : string
}.

(** The types the installer only passes on: the state of the cluster behind
    the API client, [clientcmd.Factory], the caller's [io.Writer], the
    [cobra.Command] of a delegate, the service object a probe returns and
    the fields of a security context constraint other than its name and
    users. *)
Class ExtTypes := {
  Cluster : Type;
  Factory : Type;
  Writer : Type;
  Cmd : Type;
  Service : Type;
  SCCRest : Type
}.

Section Model.
Context `{ExtTypes}.

(** A security context constraint: the authorized identities [scc_Users]
    and everything else. *)
Record SecurityContextConstraints := mkSCC {
  scc_Name : string;
  scc_Users : list string;
  scc_rest : SCCRest
}.

(** The assignment [scc.Users = users]. *)
Definition scc_set_Users (scc : SecurityContextConstraints) (users : list string)
  : SecurityContextConstraints :=
  {| scc_Name := scc_Name scc; scc_Users := users; scc_rest := scc_rest scc |}.

(** The calls of [kclient.Interface] the installer makes, as functions of
    the cluster's state. *)
Record KubeClient := mkKubeClient {
  kc_Services_Get : string -> string -> Cluster -> res Service * Cluster;
  kc_ServiceAccounts_Create :
    string -> ServiceAccount -> Cluster -> res ServiceAccount * Cluster;
  kc_SCC_Get : string -> Cluster -> res SecurityContextConstraints * Cluster;
  kc_SCC_Update :
    SecurityContextConstraints -> Cluster
    -> res SecurityContextConstraints * Cluster
}.

(** Everything the installer can touch: the files and the cluster. *)
Record World := mkWorld {
  w_fs : FS;
  w_cluster : Cluster
}.

(** The library calls and the delegate commands of the installer, which are
    not part of [admin.go]: [filepath.Join] on two elements,
    [variable.NewDefaultImageTemplate], [CreateServerCert] of the
    certificate utility, the constructors of the delegates' commands,
    [cmd.SetOutput] to the installer's buffer, and the delegates
    themselves, which return what they wrote to that buffer. *)
Class Externals := {
  filepath_Join : string -> string -> string;
  NewDefaultImageTemplate : ImageTemplate;
  ext_CreateServerCert : CreateServerCertOptions -> World -> error * World;
  NewCmdRegistry : Factory -> string -> string -> Writer -> Cmd;
  NewCmdRouter : Factory -> string -> string -> Writer -> Cmd;
  Cmd_SetOutput : Cmd -> Cmd;
  ext_RunCmdRegistry :
    Factory -> Cmd -> RegistryConfig -> list string -> World
    -> string * error * World;
  ext_RunCmdRouter :
    Factory -> Cmd -> RouterConfig -> list string -> World
    -> string * error * World
}.

Context `{Externals}.

(** The calls the installer makes, each with its outcome. *)
Inductive Event :=
  | EvServicesGet (ns name : string) (err : error)
  | EvServiceAccountsCreate (ns : string) (sa : ServiceAccount) (err : error)
  | EvSCCGet (name : string) (r : res SecurityContextConstraints)
  | EvSCCUpdate (scc : SecurityContextConstraints) (err : error)
  | EvCreateServerCert (opts : CreateServerCertOptions) (err : error)
  | EvFs (e : FsEvent)
  | EvRunCmdRegistry (cmd : Cmd) (cfg : RegistryConfig) (args : list string)
      (err : error)
  | EvRunCmdRouter (cmd : Cmd) (cfg : RouterConfig) (args : list string)
      (err : error)
  | EvGlog (v : nat) (msg : string).

(** The state the installer runs in: the world and the calls made. *)
Record St := mkSt {
  world : World;
  log : list Event
}.

(** A call of the API client: it acts on the cluster and is logged. *)
Definition client_call {A} (f : Cluster -> res A * Cluster)
    (ev : res A -> Event) : M St (res A) :=
  fun st =>
    let '(r, c') := f (w_cluster (world st)) in
    Some (r, mkSt (mkWorld (w_fs (world st)) c') (log st ++ [ev r])).

Definition Services_Get (k : KubeClient) (ns name : string) : M St (res Service) :=
  client_call (kc_Services_Get k ns name)
    (fun r => EvServicesGet ns name (res_err r)).

Definition ServiceAccounts_Create (k : KubeClient) (ns : string)
    (sa : ServiceAccount) : M St (res ServiceAccount) :=
  client_call (kc_ServiceAccounts_Create k ns sa)
    (fun r => EvServiceAccountsCreate ns sa (res_err r)).

Definition SCC_Get (k : KubeClient) (name : string)
  : M St (res SecurityContextConstraints) :=
  client_call (kc_SCC_Get k name) (fun r => EvSCCGet name r).

Definition SCC_Update (k : KubeClient) (scc : SecurityContextConstraints)
  : M St (res SecurityContextConstraints) :=
  client_call (kc_SCC_Update k scc) (fun r => EvSCCUpdate scc (res_err r)).

Definition CreateServerCert (opts : CreateServerCertOptions) : M St error :=
  fun st =>
    let '(err, w') := ext_CreateServerCert opts (world st) in
    Some (err, mkSt w' (log st ++ [EvCreateServerCert opts err])).

Definition RunCmdRegistry (f : Factory) (cmd : Cmd) (cfg : RegistryConfig)
    (args : list string) : M St (string * error) :=
  fun st =>
    let '(output, err, w') := ext_RunCmdRegistry f cmd cfg args (world st) in
    Some ((output, err), mkSt w' (log st ++ [EvRunCmdRegistry cmd cfg args err])).

Definition RunCmdRouter (f : Factory) (cmd : Cmd) (cfg : RouterConfig)
    (args : list string) : M St (string * error) :=
  fun st =>
    let '(output, err, w') := ext_RunCmdRouter f cmd cfg args (world st) in
    Some ((output, err), mkSt w' (log st ++ [EvRunCmdRouter cmd cfg args err])).

(** [glog.V(v).Infof]. *)
Definition glog_V_Infof (v : nat) (msg : string) : M St unit :=
  fun st => Some (tt, mkSt (world st) (log st ++ [EvGlog v msg])).

(** A computation on the files, run on the world's file system; its calls
    join the installer's log. *)
Definition in_fs {A} (m : M FsSt A) : M St A :=
  fun st =>
    match m (mkFsSt (w_fs (world st)) []) with
    | Some (a, fst') =>
        Some (a, mkSt (mkWorld (fs fst') (w_cluster (world st)))
                      (log st ++ (EvFs <$> fslog fst')))
    | None => None
    end.

(** ** InstallRegistry and InstallRouter

    The receiver [h *Helper] is used by neither. *)

Definition InstallRegistry (kubeClient : KubeClient) (f : Factory)
    (configDir tag : string) (out : Writer) : M St error :=
  let* r := Services_Get kubeClient "default" svcDockerRegistry in
  match res_err r with
  | None => ret None
  | Some err =>
      if negb (IsNotFound err)
      then ret (Some (BootstrapError "error retrieving docker registry service" err))
      else
        let cfg :=
          {| rg_Name := "registry";
             rg_Type := "docker-registry";
             rg_ImageTemplate := NewDefaultImageTemplate;
             rg_Ports := "5000";
             rg_Replicas := 1;
             rg_Labels := "docker-registry=default";
             rg_Volume := "/registry";
             rg_ServiceAccount := "registry" |} in
        let cfg := rg_set_Format cfg (imageFormat tag) in
        let cmd := NewCmdRegistry f EmptyString "registry" out in
        let* (output, err) := RunCmdRegistry f cmd cfg [] in
        let* _ := glog_V_Infof 4 ("Registry command output:" +:+ nl +:+ output) in
        ret err
  end.

Definition InstallRouter (fuel : nat) (kubeClient : KubeClient) (f : Factory)
    (configDir tag hostIP : string) (out : Writer) : M St error :=
  let* r := Services_Get kubeClient "default" "router" in
  match res_err r with
  | None => ret None
  | Some _ =>
      let masterDir := filepath_Join configDir "master" in
      let routerSA := {| sa_Name := "router" |} in
      let* r := ServiceAccounts_Create kubeClient "default" routerSA in
      match r with
      | Fail err =>
          ret (Some (BootstrapError "cannot create router service account" err))
      | Ok _ =>
      let* r := SCC_Get kubeClient "privileged" in
      match r with
      | Fail err => ret (Some (BootstrapError "cannot retrieve privileged SCC" err))
      | Ok privilegedSCC =>
      let privilegedSCC :=
        scc_set_Users privilegedSCC
          (scc_Users privilegedSCC ++ [MakeUsername "default" "router"]) in
      let* r := SCC_Update kubeClient privilegedSCC in
      match r with
      | Fail err => ret (Some (BootstrapError "cannot update privileged SCC" err))
      | Ok _ =>
      let createCertOptions :=
        {| cc_SignerCertOptions :=
             {| sg_CertFile := filepath_Join masterDir "ca.crt";
                sg_KeyFile := filepath_Join masterDir "ca.key";
                sg_SerialFile := filepath_Join masterDir "ca.serial.txt" |};
           cc_Overwrite := true;
           cc_Hostnames := [hostIP +:+ ".xip.io"];
           cc_CertFile := filepath_Join masterDir "router.crt";
           cc_KeyFile := filepath_Join masterDir "router.key" |} in
      let* err := CreateServerCert createCertOptions in
      match err with
      | Some e => ret (Some (BootstrapError "cannot create router cert" e))
      | None =>
      let* err :=
        in_fs (catFiles fuel (filepath_Join masterDir "router.pem")
                 [filepath_Join masterDir "router.crt";
                  filepath_Join masterDir "router.key";
                  filepath_Join masterDir "ca.crt"]) in
      match err with
      | Some _ => ret err
      | None =>
      let cfg :=
        {| rt_Name := "router";
           rt_Type := "haproxy-router";
           rt_ImageTemplate := NewDefaultImageTemplate;
           rt_Ports := "80:80,443:443";
           rt_Replicas := 1;
           rt_Labels := "router=<name>";
           rt_Credentials := filepath_Join masterDir "admin.kubeconfig";
           rt_DefaultCertificate := filepath_Join masterDir "router.pem";
           rt_StatsPort := 1936;
           rt_StatsUsername := "admin";
           rt_HostNetwork := true;
           rt_HostPorts := true;
           rt_ServiceAccount := "router" |} in
      let cfg := rt_set_Format cfg (imageFormat tag) in
      let cmd := NewCmdRouter f EmptyString "router" out in
      let cmd := Cmd_SetOutput cmd in
      let* (output, err) := RunCmdRouter f cmd cfg [] in
      let* _ := glog_V_Infof 4 ("Router command output:" +:+ nl +:+ output) in
      ret err
      end end end end end
  end.

End Model.

(** "Can be copied": no unreadable byte within the file, and room in the
    destination for [n] bytes in all. *)
Definition read_ok (s : FS) (name : string) (data : list byte) : Prop :=
  match read_fault s name with
  | Some (k, _) => length data <= k
  | None => True
  end.

Definition write_ok (s : FS) (name : string) (n : nat) : Prop :=
  match write_fault s name with
  | Some (cap, _) => n <= cap
  | None => True
  end.

(** A source of [catFiles] that can be opened and copied: it is not the
    destination itself, it holds [data], and neither opening nor reading it
    fails. *)
Definition source_ok (s : FS) (dest name : string) (data : list byte) : Prop :=
  name <> dest
  /\ files s !! name = Some data
  /\ open_fault s name = None
  /\ read_ok s name data.

(** ** Reading the installer's log *)

(** The error a logged call returned. *)
Definition fs_ev_err (e : FsEvent) : error :=
  match e with
  | FsCreate _ err => err
  | FsOpen _ err => err
  | FsCopy _ _ _ err => err
  | FsClose _ => None
  end.

Section Logs.
Context `{ExtTypes}.

Definition ev_err (ev : Event) : error :=
  match ev with
  | EvServicesGet _ _ err => err
  | EvServiceAccountsCreate _ _ err => err
  | EvSCCGet _ r => res_err r
  | EvSCCUpdate _ err => err
  | EvCreateServerCert _ err => err
  | EvFs e => fs_ev_err e
  | EvRunCmdRegistry _ _ _ err => err
  | EvRunCmdRouter _ _ _ err => err
  | EvGlog _ _ => None
  end.

(** Every logged call succeeded. *)
Definition steps_ok (l : list Event) : Prop :=
  Forall (fun ev => ev_err ev = None) l.

Definition is_ServiceAccountsCreate (ev : Event) : bool :=
  match ev with EvServiceAccountsCreate _ _ _ => true | _ => false end.

Definition is_SCCGet (ev : Event) : bool :=
  match ev with EvSCCGet _ _ => true | _ => false end.

Definition is_SCCUpdate (ev : Event) : bool :=
  match ev with EvSCCUpdate _ _ => true | _ => false end.

Definition is_CreateServerCert (ev : Event) : bool :=
  match ev with EvCreateServerCert _ _ => true | _ => false end.

Definition is_RunCmdRegistry (ev : Event) : bool :=
  match ev with EvRunCmdRegistry _ _ _ _ => true | _ => false end.

Definition is_RunCmdRouter (ev : Event) : bool :=
  match ev with EvRunCmdRouter _ _ _ _ => true | _ => false end.

Definition is_Fs (ev : Event) : bool :=
  match ev with EvFs _ => true | _ => false end.

(** The number of logged calls of one kind. *)
Definition calls (p : Event -> bool) (l : list Event) : nat :=
  length (List.filter p l).

(** The target service is absent: the probe answers with a not-found error. *)
Definition absent (k : KubeClient) (name : string) (w : World) : Prop :=
  exists e c,
    kc_Services_Get k "default" name (w_cluster w) = (Fail e, c)
    /\ IsNotFound e = true.

(** What a run leaves behind once the probe's own log entry is set aside. *)
Definition after_probe (run : option (error * St))
  : option (error * World * list Event) :=
  match run with
  | Some (r, st) => Some (r, world st, tail (log st))
  | None => None
  end.

End Logs.

(** ** A cluster and collaborators to run the installer on *)

(** An API server held in memory: the services and service accounts by
    name, the users of each security context constraint, and the error, if
    any, with which it answers every service lookup. *)
Record FakeCluster := mkFakeCluster {
  fc_services : list string;
  fc_accounts : list string;
  fc_sccs : gmap string (list string);
  fc_probe_fault : option Err
}.

Definition fakeTypes : ExtTypes :=
  {| Cluster := FakeCluster;
     Factory := unit;
     Writer := unit;
     Cmd := string;
     Service := string;
     SCCRest := unit |}.

Definition fake_not_found (name : string) : Err :=
  StatusError StatusReasonNotFound (name +:+ " not found").

Definition fake_Services_Get (ns name : string) (c : FakeCluster)
  : res string * FakeCluster :=
  match fc_probe_fault c with
  | Some e => (Fail e, c)
  | None =>
      if bool_decide (name ∈ fc_services c)
      then (Ok name, c)
      else (Fail (fake_not_found name), c)
  end.

Definition fake_ServiceAccounts_Create (ns : string) (sa : ServiceAccount)
    (c : FakeCluster) : res ServiceAccount * FakeCluster :=
  if bool_decide (sa_Name sa ∈ fc_accounts c)
  then (Fail (StatusError StatusReasonAlreadyExists (sa_Name sa)), c)
  else (Ok sa,
        {| fc_services := fc_services c;
           fc_accounts := sa_Name sa :: fc_accounts c;
           fc_sccs := fc_sccs c;
           fc_probe_fault := fc_probe_fault c |}).

Definition fake_SCC_Get (name : string) (c : FakeCluster)
  : res (@SecurityContextConstraints fakeTypes) * FakeCluster :=
  match fc_sccs c !! name with
  | Some users => (Ok (@mkSCC fakeTypes name users tt), c)
  | None => (Fail (fake_not_found name), c)
  end.

Definition fake_SCC_Update (scc : @SecurityContextConstraints fakeTypes)
    (c : FakeCluster)
  : res (@SecurityContextConstraints fakeTypes) * FakeCluster :=
  match fc_sccs c !! scc_Name scc with
  | Some _ =>
      (Ok scc,
       {| fc_services := fc_services c;
          fc_accounts := fc_accounts c;
          fc_sccs := <[scc_Name scc := scc_Users scc]> (fc_sccs c);
          fc_probe_fault := fc_probe_fault c |})
  | None => (Fail (fake_not_found (scc_Name scc)), c)
  end.

Definition fakeClient : @KubeClient fakeTypes :=
  @mkKubeClient fakeTypes fake_Services_Get fake_ServiceAccounts_Create
    fake_SCC_Get fake_SCC_Update.

Definition fake_add_service (name : string) (w : @World fakeTypes)
  : @World fakeTypes :=
  @mkWorld fakeTypes (w_fs w)
    {| fc_services := name :: fc_services (w_cluster w);
       fc_accounts := fc_accounts (w_cluster w);
       fc_sccs := fc_sccs (w_cluster w);
       fc_probe_fault := fc_probe_fault (w_cluster w) |}.

Definition bytes_of (s : string) : list byte := String.list_byte_of_string s.

(** A certificate utility that needs the signer's certificate and writes a
    certificate and a key. *)
Definition fake_CreateServerCert (opts : CreateServerCertOptions)
    (w : @World fakeTypes) : error * @World fakeTypes :=
  let signer := sg_CertFile (cc_SignerCertOptions opts) in
  match files (w_fs w) !! signer with
  | None => (Some (PathError "open" signer ENOENT), w)
  | Some _ =>
      (None,
       @mkWorld fakeTypes
         (set_files (w_fs w)
            (<[cc_KeyFile opts := bytes_of "KEY"]>
               (<[cc_CertFile opts := bytes_of "CERT"]> (files (w_fs w)))))
         (w_cluster w))
  end.

Definition fakeExternals : @Externals fakeTypes :=
  {| filepath_Join := fun dir name => dir +:+ "/" +:+ name;
     NewDefaultImageTemplate :=
       {| Format := "openshift/origin-${component}:${version}"; Latest := false |};
     ext_CreateServerCert := fake_CreateServerCert;
     NewCmdRegistry := fun _ _ name _ => name;
     NewCmdRouter := fun _ _ name _ => name;
     Cmd_SetOutput := fun cmd => cmd;
     ext_RunCmdRegistry := fun _ _ _ _ w =>
       ("registry created", None, fake_add_service svcDockerRegistry w);
     ext_RunCmdRouter := fun _ _ _ _ w =>
       ("router created", None, fake_add_service svcRouter w) |}.

Definition no_fault {A} : string -> option A := fun _ => None.

(** A master directory holding the signer's certificate, and a fresh cluster
    with its privileged policy. *)
Definition fake_fs : FS :=
  {| files := {[ "/cfg/master/ca.crt" := bytes_of "CA" ]};
     create_fault := no_fault;
     open_fault := no_fault;
     read_fault := no_fault;
     write_fault := no_fault |}.

Definition fake_cluster (fault : option Err) : FakeCluster :=
  {| fc_services := [];
     fc_accounts := [];
     fc_sccs := {[ "privileged" := ["system:admin"; "system:serviceaccount:openshift-infra:build-controller"] ]};
     fc_probe_fault := fault |}.

Definition fake_world (fault : option Err) : @World fakeTypes :=
  @mkWorld fakeTypes fake_fs (fake_cluster fault).

(** The same world after a first installation of both add-ons. *)
Definition fake_installed_world : @World fakeTypes :=
  fake_add_service svcRouter (fake_add_service svcDockerRegistry (fake_world None)).

Definition fake_InstallRegistry :=
  @InstallRegistry fakeTypes fakeExternals fakeClient tt.

Definition fake_InstallRouter (fuel : nat) :=
  @InstallRouter fakeTypes fakeExternals fuel fakeClient tt.

Definition fake_start (w : @World fakeTypes) : @St fakeTypes :=
  @mkSt fakeTypes w [].

(** Three files and a destination that already holds bytes. *)
Definition cat_fs : FS :=
  {| files := {[ "a" := bytes_of "AA"; "b" := bytes_of "B"; "c" := bytes_of "CCC";
                 "d" := bytes_of "old" ]};
     create_fault := no_fault;
     open_fault := no_fault;
     read_fault := no_fault;
     write_fault := no_fault |}.

(** A client that is refused every service lookup and is otherwise
    [fakeClient]. *)
Definition fake_denied_client (e : Err) : @KubeClient fakeTypes :=
  @mkKubeClient fakeTypes (fun _ _ c => (Fail e, c))
    fake_ServiceAccounts_Create fake_SCC_Get fake_SCC_Update.

Definition fake_forbidden : Err :=
  StatusError StatusReasonForbidden "services is forbidden".

(** The states a first installation on the fresh cluster ends in. *)
Definition fake_registry_end : @St fakeTypes :=
  state_of (fake_InstallRegistry "/cfg" "v1.3" tt) (fake_start (fake_world None)).

Definition fake_router_end : @St fakeTypes :=
  state_of (fake_InstallRouter 8 "/cfg" "v1.3" "10.0.0.1" tt)
    (fake_start (fake_world None)).

(** The configurations the delegates are run with in these installations,
    and the policy that is written back. *)
Definition fake_registry_cfg : RegistryConfig :=
  {| rg_Name := "registry";
     rg_Type := "docker-registry";
     rg_ImageTemplate :=
       {| Format := "openshift/origin-${component}:v1.3"; Latest := false |};
     rg_Ports := "5000";
     rg_Replicas := 1;
     rg_Labels := "docker-registry=default";
     rg_Volume := "/registry";
     rg_ServiceAccount := "registry" |}.

Definition fake_router_cfg : RouterConfig :=
  {| rt_Name := "router";
     rt_Type := "haproxy-router";
     rt_ImageTemplate :=
       {| Format := "openshift/origin-${component}:v1.3"; Latest := false |};
     rt_Ports := "80:80,443:443";
     rt_Replicas := 1;
     rt_Labels := "router=<name>";
     rt_Credentials := "/cfg/master/admin.kubeconfig";
     rt_DefaultCertificate := "/cfg/master/router.pem";
     rt_StatsPort := 1936;
     rt_StatsUsername := "admin";
     rt_HostNetwork := true;
     rt_HostPorts := true;
     rt_ServiceAccount := "router" |}.

Definition fake_granted : @SecurityContextConstraints fakeTypes :=
  @mkSCC fakeTypes "privileged"
    ["system:admin"; "system:serviceaccount:openshift-infra:build-controller";
     "system:serviceaccount:default:router"] tt.

(** ** Measures on the calls of catFiles *)

(** The bytes a logged call reports as written. *)
Definition ev_written (e : FsEvent) : nat :=
  match e with
  | FsCopy _ _ n _ => n
  | _ => 0
  end.

Definition total_written (l : list FsEvent) : nat :=
  sum_list_with ev_written l.

(** The handles on [name] a log shows being taken, by a successful create
    or a successful open, and being closed. *)
Definition is_created (name : string) (e : FsEvent) : bool :=
  match e with
  | FsCreate n None => bool_decide (n = name)
  | _ => false
  end.

Definition is_opened (name : string) (e : FsEvent) : bool :=
  match e with
  | FsOpen n None => bool_decide (n = name)
  | _ => false
  end.

Definition is_closed (name : string) (e : FsEvent) : bool :=
  match e with
  | FsClose n => bool_decide (n = name)
  | _ => false
  end.

Definition fs_calls (p : FsEvent -> bool) (l : list FsEvent) : nat :=
  length (List.filter p l).

(** How often an identity occurs in a list of users. *)
Definition occurrences (u : string) (l : list string) : nat :=
  length (List.filter (fun v => bool_decide (v = u)) l).

(** The files of [cat_fs] on a disk where [b] cannot be read. *)
Definition cat_fs_unreadable : FS :=
  {| files := files cat_fs;
     create_fault := no_fault;
     open_fault := no_fault;
     read_fault := fun name => if bool_decide (name = "b") then Some (0, EIO) else None;
     write_fault := no_fault |}.

(** The files of [cat_fs] in a directory where [d] cannot be created. *)
Definition cat_fs_readonly : FS :=
  {| files := files cat_fs;
     create_fault := fun name => if bool_decide (name = "d") then Some EACCES else None;
     open_fault := no_fault;
     read_fault := no_fault;
     write_fault := no_fault |}.

(** The files of [cat_fs] on a disk where [d] cannot grow beyond five
    bytes. *)
Definition cat_fs_small : FS :=
  {| files := files cat_fs;
     create_fault := no_fault;
     open_fault := no_fault;
     read_fault := no_fault;
     write_fault := fun name => if bool_decide (name = "d") then Some (5, ENOSPC) else None |}.

(** ** More clusters and disks to run the installer on *)

(** The master directory on a disk where the signer's certificate cannot be
    read, and on one where the router's key cannot be opened. *)
Definition fake_fs_unreadable_ca : FS :=
  {| files := files fake_fs;
     create_fault := no_fault;
     open_fault := no_fault;
     read_fault := fun name =>
       if bool_decide (name = "/cfg/master/ca.crt") then Some (0, EIO) else None;
     write_fault := no_fault |}.

Definition fake_fs_key_denied : FS :=
  {| files := files fake_fs;
     create_fault := no_fault;
     open_fault := fun name =>
       if bool_decide (name = "/cfg/master/router.key") then Some EACCES else None;
     read_fault := no_fault;
     write_fault := no_fault |}.

(** A cluster that has the router's service account but not its service,
    and one whose privileged policy lists the router's identity already. *)
Definition fake_cluster_with_account : FakeCluster :=
  {| fc_services := [];
     fc_accounts := ["router"];
     fc_sccs := fc_sccs (fake_cluster None);
     fc_probe_fault := None |}.

Definition fake_cluster_granted : FakeCluster :=
  {| fc_services := [];
     fc_accounts := [];
     fc_sccs := {[ "privileged" := ["system:serviceaccount:default:router"; "system:admin"] ]};
     fc_probe_fault := None |}.

(** The state a router installation ends in. *)
Definition fake_router_end_on (s : FS) (c : FakeCluster) : @St fakeTypes :=
  state_of (fake_InstallRouter 8 "/cfg" "v1.3" "10.0.0.1" tt)
    (fake_start (@mkWorld fakeTypes s c)).

Definition fake_granted_twice : @SecurityContextConstraints fakeTypes :=
  @mkSCC fakeTypes "privileged"
    ["system:serviceaccount:default:router"; "system:admin";
     "system:serviceaccount:default:router"] tt.

Definition fake_cert_options : CreateServerCertOptions :=
  {| cc_SignerCertOptions :=
       {| sg_CertFile := "/cfg/master/ca.crt";
          sg_KeyFile := "/cfg/master/ca.key";
          sg_SerialFile := "/cfg/master/ca.serial.txt" |};
     cc_Overwrite := true;
     cc_Hostnames := ["10.0.0.1.xip.io"];
     cc_CertFile := "/cfg/master/router.crt";
     cc_KeyFile := "/cfg/master/router.key" |}.

(** ** The event scan of the install-time security-policy test

    The body of the test "should not have pod creation failures during
    install": it lists the events of all namespaces and reports those
    that tell of a security-policy denial. *)

(** The fields of [corev1.ObjectReference] and [corev1.Event] the test
    reads; [Count] is an [int32]. *)
Record ObjectReference := mkObjectReference {
  or_Kind : string;
  or_APIVersion : string;
  or_Name : string;
  or_Namespace : string
}.

Record CoreEvent := mkCoreEvent {
  ce_Message : string;
  ce_InvolvedObject : ObjectReference;
  ce_Count : Z
}.

Definition denialText : string :=
  "unable to validate against any security context constraint".

(** [strings.Contains]. *)
Fixpoint strings_Contains (s substr : string) : bool :=
  if String.prefix substr s then true
  else
    match s with
    | EmptyString => false
    | String _ s' => strings_Contains s' substr
    end.

(** [strings.Join]. *)
Fixpoint strings_Join (elems : list string) (sep : string) : string :=
  match elems with
  | [] => EmptyString
  | [x] => x
  | x :: rest => x +:+ sep +:+ strings_Join rest sep
  end.

(** The verb [%d] of [fmt] on an integer. *)
Definition fmt_d (n : Z) : string :=
  DecimalString.NilZero.string_of_int (Z.to_int n).

(** The summary line of one event: [fmt.Sprintf] of
    ["%v for %v.%v/%v -n %v happened %d times"]. *)
Definition denialString (event : CoreEvent) : string :=
  ce_Message event +:+ " for "
  +:+ or_Kind (ce_InvolvedObject event) +:+ "."
  +:+ or_APIVersion (ce_InvolvedObject event) +:+ "/"
  +:+ or_Name (ce_InvolvedObject event) +:+ " -n "
  +:+ or_Namespace (ce_InvolvedObject event) +:+ " happened "
  +:+ fmt_d (ce_Count event) +:+ " times".

(** The loop over [events.Items]; [denialStrings] is the slice appended
    to. *)
Fixpoint scanEvents (items : list CoreEvent) (denialStrings : list string)
  : list string :=
  match items with
  | [] => denialStrings
  | event :: items' =>
      if negb (strings_Contains (ce_Message event) denialText)
      then scanEvents items' denialStrings
      else scanEvents items' (denialStrings ++ [denialString event])
  end.

(** How the test ends: [g.Fail], which ends it at once, or
    [result.Flakef] with the format it is given. *)
Inductive SpecOutcome :=
  | SpecFailed (message : string)
  | SpecFlaked (format : string).

(** The test, given the outcome of listing the events; [error_text] is
    the text [%v] prints for an error. *)
Definition sccDenialSpec (error_text : Err -> string)
    (listed : res (list CoreEvent)) : SpecOutcome :=
  match listed with
  | Fail err => SpecFailed ("Unexpected error: " +:+ error_text err)
  | Ok items => SpecFlaked (strings_Join (scanEvents items []) nl)
  end.

(** A denial, and an event of another kind. *)
Definition denial_event : CoreEvent :=
  {| ce_Message :=
       "Error creating: pods web- is forbidden: unable to validate against any security context constraint: []";
     ce_InvolvedObject :=
       {| or_Kind := "ReplicaSet"; or_APIVersion := "apps/v1";
          or_Name := "web"; or_Namespace := "shop" |};
     ce_Count := 12 |}.

Definition pulled_event : CoreEvent :=
  {| ce_Message := "Successfully pulled image";
     ce_InvolvedObject :=
       {| or_Kind := "Pod"; or_APIVersion := "v1";
          or_Name := "web-1"; or_Namespace := "shop" |};
     ce_Count := 1 |}.

(** * Properties *)

Local Open Scope list_scope.

(** ** The monad *)

Lemma bind_Some {S A B} (m : M S A) (k : A -> M S B) s b s'' :
  bind m k s = Some (b, s'') <->
  exists a s', m s = Some (a, s') /\ k a s' = Some (b, s'').
Proof.
  unfold bind. split.
  - destruct (m s) as [[a s']|] eqn:E; [eauto | discriminate].
  - intros (a & s' & -> & Hk). exact Hk.
Qed.

Lemma ret_Some {S A} (a b : A) (s s' : S) :
  ret a s = Some (b, s') <-> a = b /\ s = s'.
Proof. unfold ret. split; [intros [= -> ->] | intros [-> ->]]; done. Qed.

(** ** Reading, writing and copying *)

Lemma copyBufSize_pos : 0 < copyBufSize.
Proof. unfold copyBufSize. lia. Qed.

Lemma set_files_id s : set_files s (files s) = s.
Proof. by destruct s. Qed.

Lemma advance_0 f : advance f 0 = f.
Proof. destruct f as [n o]. unfold advance. simpl. f_equal. lia. Qed.

Lemma advance_advance f n m : advance (advance f n) m = advance f (n + m).
Proof. unfold advance. simpl. f_equal. lia. Qed.

Lemma take_drop_length {A} (m : nat) (l : list A) :
  take m l ++ drop (length (take m l)) l = l.
Proof.
  rewrite length_take. destruct (decide (m <= length l)) as [Hle|Hgt].
  - rewrite Nat.min_l by done. apply take_drop.
  - rewrite Nat.min_r by lia. rewrite take_ge by lia.
    rewrite drop_all. apply app_nil_r.
Qed.

Lemma fs_Read_at_end f n s :
  length (content s (f_name f)) <= f_off f ->
  fs_Read f n s = ([], Some EOF, f).
Proof.
  intros Hle. unfold fs_Read. by rewrite drop_ge.
Qed.

Lemma fs_Read_chunk f n s data :
  files s !! f_name f = Some data ->
  f_off f < length data ->
  read_ok s (f_name f) data ->
  0 < n ->
  exists chunk,
    fs_Read f n s = (chunk, None, advance f (length chunk))
    /\ 0 < length chunk
    /\ drop (f_off f) data = chunk ++ drop (f_off f + length chunk) data.
Proof.
  intros Hdata Hlt Hread Hn. unfold fs_Read, content. rewrite Hdata. simpl.
  assert (Havail : 0 < length (drop (f_off f) data))
    by (rewrite length_drop; lia).
  destruct (drop (f_off f) data) as [|x avail] eqn:Edrop; [simpl in Havail; lia|].
  assert (Hsplit : forall m, 0 < m ->
    0 < length (take m (x :: avail))
    /\ x :: avail = take m (x :: avail)
         ++ drop (f_off f + length (take m (x :: avail))) data).
  { intros m Hm. split.
    - destruct m; [lia | simpl; lia].
    - rewrite <- drop_drop, Edrop. symmetry. apply take_drop_length. }
  unfold read_ok in Hread.
  destruct (read_fault s (f_name f)) as [[k e]|].
  - rewrite bool_decide_eq_false_2 by lia.
    eexists. split; [reflexivity|]. apply Hsplit. lia.
  - eexists. split; [reflexivity|]. by apply Hsplit.
Qed.

Lemma write_at_end (b cur : list byte) : write_at (length cur) b cur = cur ++ b.
Proof.
  unfold write_at. rewrite take_ge by lia. rewrite Nat.sub_diag. simpl.
  rewrite drop_ge by lia. by rewrite app_nil_r.
Qed.

Lemma fs_Write_append f b s cur :
  files s !! f_name f = Some cur ->
  f_off f = length cur ->
  write_ok s (f_name f) (length cur + length b) ->
  b <> [] ->
  fs_Write f b s
  = (length b, None, advance f (length b),
     set_files s (<[f_name f := cur ++ b]> (files s))).
Proof.
  intros Hcur Hoff Hroom Hb. unfold fs_Write, content, write_ok in *.
  rewrite Hcur, Hoff. simpl.
  destruct (write_fault s (f_name f)) as [[cap e]|].
  - rewrite take_ge by lia. rewrite bool_decide_eq_false_2 by lia.
    destruct b; [done|]. by rewrite write_at_end.
  - destruct b; [done|]. by rewrite write_at_end.
Qed.

Lemma copyBuffer_S fuel dst src written s :
  copyBuffer (S fuel) dst src written s =
  let '(buf, er, src') := fs_Read src copyBufSize s in
  let nr := length buf in
  let '(written', ew, dst', s') :=
    if bool_decide (0 < nr)
    then
      let '(nw, ew, dst', s') := fs_Write dst buf s in
      let written' := if bool_decide (0 < nw) then written + nw else written in
      let ew' :=
        match ew with
        | Some _ => ew
        | None => if bool_decide (nr ≠ nw) then Some ErrShortWrite else None
        end in
      (written', ew', dst', s')
    else (written, None, dst, s) in
  match ew with
  | Some _ => Some (written', ew, dst', s')
  | None =>
      match er with
      | Some EOF => Some (written', None, dst', s')
      | Some _ => Some (written', er, dst', s')
      | None => copyBuffer fuel dst' src' written' s'
      end
  end.
Proof. reflexivity. Qed.

(** Copying a readable file into another file that has room appends the
    unread bytes of the first to the second, given enough rounds. *)
Lemma copyBuffer_appends fuel : forall dst src written s data cur,
  f_name src <> f_name dst ->
  files s !! f_name src = Some data ->
  f_off src <= length data ->
  read_ok s (f_name src) data ->
  files s !! f_name dst = Some cur ->
  f_off dst = length cur ->
  write_ok s (f_name dst) (length cur + (length data - f_off src)) ->
  length data - f_off src < fuel ->
  copyBuffer fuel dst src written s
  = Some (written + (length data - f_off src), None,
          advance dst (length data - f_off src),
          set_files s
            (<[f_name dst := cur ++ drop (f_off src) data]> (files s))).
Proof.
  induction fuel as [|fuel IH];
    intros dst src written s data cur Hne Hdata Hoff Hread Hcur Hdoff Hroom Hfuel;
    [lia|].
  rewrite copyBuffer_S.
  destruct (decide (f_off src < length data)) as [Hlt|Hge].
  - destruct (fs_Read_chunk src copyBufSize s data Hdata Hlt Hread copyBufSize_pos)
      as (chunk & -> & Hpos & Hsplit).
    cbv zeta. rewrite bool_decide_eq_true_2 by done.
    assert (Hlen : f_off src + length chunk <= length data).
    { apply (f_equal length) in Hsplit.
      rewrite length_app, !length_drop in Hsplit. lia. }
    rewrite (fs_Write_append dst chunk s cur Hcur Hdoff);
      [| unfold write_ok in *; destruct (write_fault s (f_name dst)) as [[??]|]; lia
       | by destruct chunk; [simpl in Hpos; lia|] ].
    cbv beta iota zeta.
    rewrite (bool_decide_eq_false_2 (length chunk ≠ length chunk))
      by (intros Hn; by apply Hn).
    rewrite (bool_decide_eq_true_2 (0 < length chunk)) by done.
    rewrite (IH _ _ _ _ data (cur ++ chunk)); simpl.
    + f_equal. f_equal; [f_equal; [f_equal; lia|]|].
      * rewrite advance_advance. f_equal. lia.
      * unfold set_files. simpl. f_equal.
        rewrite insert_insert_eq. f_equal.
        rewrite Hsplit. by rewrite <- app_assoc.
    + done.
    + by rewrite lookup_insert_ne.
    + lia.
    + done.
    + by rewrite lookup_insert_eq.
    + rewrite length_app. lia.
    + unfold write_ok in *. simpl.
      destruct (write_fault s (f_name dst)) as [[??]|]; [|done].
      rewrite length_app. lia.
    + lia.
  - rewrite fs_Read_at_end by (unfold content; rewrite Hdata; simpl; lia).
    simpl. replace (length data - f_off src) with 0 by lia.
    rewrite Nat.add_0_r, advance_0, drop_ge by lia.
    rewrite app_nil_r, insert_id by done. by rewrite set_files_id.
Qed.

(** ** catFiles on sources that can be opened and copied *)

Lemma source_ok_after_write s dest f d new :
  source_ok s dest f d ->
  source_ok (set_files s (<[dest := new]> (files s))) dest f d.
Proof.
  intros (Hne & Hfile & Hopen & Hread). repeat split; try done.
  simpl. by rewrite lookup_insert_ne.
Qed.

Lemma catFiles_loop_concat dest fuel srcs : forall datas out s lg cur,
  f_name out = dest ->
  f_off out = length cur ->
  files s !! dest = Some cur ->
  Forall2 (source_ok s dest) srcs datas ->
  write_ok s dest (length cur + length (concat datas)) ->
  Forall (fun d => length d < fuel) datas ->
  exists lg',
    catFiles_loop fuel out None srcs (mkFsSt s lg)
    = Some (None,
            mkFsSt (set_files s (<[dest := cur ++ concat datas]> (files s))) lg').
Proof.
  induction srcs as [|f srcs IH];
    intros datas out s lg cur Hname Hoff Hcur Hsrc Hroom Hfuel.
  - apply Forall2_nil_inv_l in Hsrc as ->. simpl.
    rewrite app_nil_r, insert_id, set_files_id by done. by eexists.
  - apply Forall2_cons_inv_l in Hsrc as (d & datas' & Hf & Hrest & ->).
    apply Forall_cons in Hfuel as [Hd Hfuel].
    simpl in Hroom. rewrite length_app in Hroom.
    destruct Hf as (Hne & Hfile & Hopen & Hread).
    simpl. unfold bind, os_Open, fs_Open, io_Copy, file_Close. simpl.
    rewrite Hopen, Hfile. simpl.
    rewrite (copyBuffer_appends fuel out (mkFile f 0) 0 s d cur); simpl;
      try rewrite Hname; try done; try lia;
      [| unfold write_ok in *; destruct (write_fault s dest) as [[??]|]; lia].
    rewrite Nat.sub_0_r, drop_0.
    edestruct (IH datas' (advance out (length d))
                 (set_files s (<[dest := cur ++ d]> (files s)))
                 ((lg ++ [FsOpen f None]) ++ [FsCopy dest f (length d) None]
                    ++ [FsClose f])
                 (cur ++ d)) as [lg' Hrun].
    + done.
    + simpl. rewrite length_app. lia.
    + simpl. by rewrite lookup_insert_eq.
    + eapply Forall2_impl; [exact Hrest|].
      intros f' d' Hok. by apply source_ok_after_write.
    + unfold write_ok in *. simpl. rewrite length_app.
      destruct (write_fault s dest) as [[??]|]; lia.
    + done.
    + exists lg'. rewrite <- app_assoc in Hrun. simpl in Hrun.
      rewrite <- !app_assoc. simpl. rewrite Hrun. do 3 f_equal.
      unfold set_files. simpl. f_equal.
      rewrite insert_insert_eq. by rewrite <- app_assoc.
Qed.

Lemma catFiles_concat fuel dest srcs datas s lg :
  create_fault s dest = None ->
  Forall2 (source_ok s dest) srcs datas ->
  write_ok s dest (length (concat datas)) ->
  Forall (fun d => length d < fuel) datas ->
  exists st',
    catFiles fuel dest srcs (mkFsSt s lg) = Some (None, st')
    /\ files (fs st') !! dest = Some (concat datas)
    /\ forall p, p <> dest -> files (fs st') !! p = files s !! p.
Proof.
  intros Hcreate Hsrc Hroom Hfuel.
  unfold catFiles, bind, os_Create, fs_Create. simpl. rewrite Hcreate. simpl.
  edestruct (catFiles_loop_concat dest fuel srcs datas (mkFile dest 0)
               (set_files s (<[dest := []]> (files s)))
               (lg ++ [FsCreate dest None]) []) as [lg' Hrun];
    try done.
  - simpl. by rewrite lookup_insert_eq.
  - eapply Forall2_impl; [exact Hsrc|].
    intros f' d' Hok. by apply source_ok_after_write.
  - rewrite Hrun. unfold file_Close. simpl. eexists. split; [reflexivity|].
    simpl. split.
    + by rewrite lookup_insert_eq.
    + intros p Hp. by rewrite !lookup_insert_ne.
Qed.

(** ** What every run of catFiles does *)

(** Finds an event in a list given in full. *)
Ltac find_in_list :=
  repeat first [apply list_elem_of_here | apply list_elem_of_further].
Ltac in_list := vm_compute; find_in_list.

(** Closes a goal whose hypothesis [H] puts an event in a list of events of
    other kinds. *)
Ltac not_in_list H :=
  repeat (apply elem_of_cons in H as [H|H]; [discriminate H|]);
  by apply elem_of_nil in H.

Lemma fs_Write_keeps f b s p :
  is_Some (files s !! p) -> is_Some (files (fs_Write f b s).2 !! p).
Proof.
  intros Hp. unfold fs_Write. simpl.
  destruct (match write_fault s (f_name f) with
            | Some (cap, _) => take (cap - f_off f) b
            | None => b
            end); [done|].
  simpl. destruct (decide (f_name f = p)) as [->|Hne].
  - by rewrite lookup_insert_eq.
  - by rewrite lookup_insert_ne.
Qed.

(** Copying never removes a file. *)
Lemma copyBuffer_keeps p fuel : forall dst src written s written' err dst' s',
  copyBuffer fuel dst src written s = Some (written', err, dst', s') ->
  is_Some (files s !! p) -> is_Some (files s' !! p).
Proof.
  induction fuel as [|fuel IH]; intros dst src written s written' err dst' s' Hrun Hp;
    [discriminate|].
  rewrite copyBuffer_S in Hrun.
  destruct (fs_Read src copyBufSize s) as [[buf er] src1].
  pose proof (fs_Write_keeps dst buf s p Hp) as Hw.
  destruct (fs_Write dst buf s) as [[[nw ew] dst1] s1]. simpl in Hw.
  cbv beta iota zeta in Hrun.
  destruct (bool_decide (0 < length buf));
    repeat case_match; simplify_eq; eauto.
Qed.

(** The loop only adds to the log; a failed open is the last thing it logs,
    and the loop then returns nil. *)
Lemma catFiles_loop_trace src : forall fuel out st r st',
  catFiles_loop fuel out None src st = Some (r, st') ->
  exists evs,
    fslog st' = fslog st ++ evs
    /\ (forall p, is_Some (files (fs st) !! p) -> is_Some (files (fs st') !! p))
    /\ (forall name e, FsOpen name (Some e) ∈ evs ->
          r = None /\ exists evs0, evs = evs0 ++ [FsOpen name (Some e)])
    /\ (forall e, r = Some e -> exists ev, ev ∈ evs /\ fs_ev_err ev = Some e).
Proof.
  induction src as [|f src IH]; intros fuel out st r st' Hrun.
  - apply ret_Some in Hrun as [<- <-]. exists []. rewrite app_nil_r.
    split; [done|]. split; [done|].
    split; [intros name e Hin; by apply elem_of_nil in Hin | done].
  - simpl in Hrun. apply bind_Some in Hrun as (ro & st1 & Hopen & Hrun).
    unfold os_Open in Hopen. simplify_eq.
    destruct (fs_Open f (fs st)) as [in_|e0] eqn:Eopen.
    + apply bind_Some in Hrun as ([[written err] out'] & st2 & Hcopy & Hrun).
      unfold io_Copy in Hcopy. simpl in Hcopy.
      destruct (copyBuffer fuel out in_ 0 (fs st)) as [[[[w1 e1] o1] s1]|] eqn:Ecopy;
        [|discriminate].
      simplify_eq.
      apply bind_Some in Hrun as ([] & st3 & Hclose & Hrun).
      unfold file_Close in Hclose. simplify_eq. simpl in Hrun.
      assert (Hkeep : forall p, is_Some (files (fs st) !! p) ->
                                is_Some (files s1 !! p))
        by (intros p; eapply copyBuffer_keeps; exact Ecopy).
      destruct err as [e1|].
      * apply ret_Some in Hrun as [<- <-]. simpl.
        eexists. split; [by rewrite <- !app_assoc|]. split; [done|]. split.
        -- intros name e Hin. simpl in Hin. not_in_list Hin.
        -- intros e [= <-].
           exists (FsCopy (f_name out) (f_name in_) written (Some e1)).
           split; [find_in_list | reflexivity].
      * apply IH in Hrun as (evs & Hlog & Hfiles & Hfail & Herr). simpl in *.
        exists ([FsOpen f None; FsCopy (f_name out) (f_name in_) written None;
                 FsClose (f_name in_)] ++ evs).
        split; [by rewrite Hlog, <- !app_assoc|]. split; [by eauto|]. split.
        -- intros name e Hin.
           apply elem_of_app in Hin as [Hin|Hin]; [not_in_list Hin|].
           destruct (Hfail name e Hin) as (-> & evs0 & ->).
           split; [done|]. eexists. by rewrite app_assoc.
        -- intros e He. destruct (Herr e He) as (ev & Hin & Hev).
           exists ev. split; [|done]. apply elem_of_app. by right.
    + simpl in Hrun. apply ret_Some in Hrun as [<- <-]. simpl.
      exists [FsOpen f (Some e0)]. split; [done|]. split; [done|]. split; [|done].
      intros name e Hin. apply list_elem_of_singleton in Hin. simplify_eq.
      split; [done|]. by exists [].
Qed.

(** [catFiles] first creates the destination; if it cannot, that is all it
    does. *)
Lemma catFiles_trace fuel dest src s r st' :
  catFiles fuel dest src (mkFsSt s []) = Some (r, st') ->
  (exists e, create_fault s dest = Some e
             /\ r = Some (PathError "open" dest e)
             /\ fs st' = s
             /\ fslog st' = [FsCreate dest r])
  \/ (create_fault s dest = None
      /\ is_Some (files (fs st') !! dest)
      /\ exists evs,
           fslog st' = FsCreate dest None :: evs ++ [FsClose dest]
           /\ (forall name e, FsOpen name (Some e) ∈ evs ->
                 r = None /\ exists evs0, evs = evs0 ++ [FsOpen name (Some e)])
           /\ (forall e, r = Some e ->
                 exists ev, ev ∈ evs /\ fs_ev_err ev = Some e)).
Proof.
  intros Hrun. unfold catFiles in Hrun.
  apply bind_Some in Hrun as (rc & st1 & Hcreate & Hrun).
  unfold os_Create, fs_Create in Hcreate. simpl in Hcreate.
  destruct (create_fault s dest) as [e|] eqn:Ecreate; simplify_eq; simpl in Hrun.
  - apply ret_Some in Hrun as [<- <-]. left. by exists e.
  - right. split; [done|].
    apply bind_Some in Hrun as (r1 & st2 & Hloop & Hrun).
    apply bind_Some in Hrun as ([] & st3 & Hclose & Hrun).
    apply ret_Some in Hrun as [<- <-].
    unfold file_Close in Hclose. simplify_eq. simpl.
    apply catFiles_loop_trace in Hloop as (evs & Hlog & Hfiles & Hfail & Herr).
    simpl in *. split.
    + apply Hfiles. by rewrite lookup_insert_eq.
    + exists evs. by rewrite Hlog.
Qed.

(** C1: when a source of [catFiles] cannot be opened, the destination has
    been created and nothing is copied after the failed open, but the value
    returned is nil: the code returns [err], which is nil at that point,
    and not [oerr], the error of the failed open. *)
Theorem catFiles_open_failure_returns_nil fuel dest src s r st' name e :
  catFiles fuel dest src (mkFsSt s []) = Some (r, st') ->
  FsOpen name (Some e) ∈ fslog st' ->
  r = None
  /\ is_Some (files (fs st') !! dest)
  /\ exists evs,
       fslog st' = FsCreate dest None :: evs ++ [FsOpen name (Some e); FsClose dest].
Proof.
  intros Hrun Hin.
  apply catFiles_trace in Hrun
    as [(e0 & _ & _ & _ & Hlog)|(_ & Hdest & evs & Hlog & Hfail & _)].
  - rewrite Hlog in Hin. apply list_elem_of_singleton in Hin. discriminate.
  - rewrite Hlog in Hin.
    apply elem_of_cons in Hin as [Hin|Hin]; [discriminate|].
    apply elem_of_app in Hin as [Hin|Hin]; [|not_in_list Hin].
    destruct (Hfail name e Hin) as (-> & evs0 & ->).
    split; [done|]. split; [done|]. exists evs0. by rewrite Hlog, <- app_assoc.
Qed.

Lemma catFiles_open_failure_returns_nil_witness :
  exists r st',
    catFiles 4 "d" ["a"; "missing"; "c"] (mkFsSt cat_fs []) = Some (r, st')
    /\ r = None
    /\ is_Some (files (fs st') !! "d")
    /\ exists evs,
         fslog st'
         = FsCreate "d" None
             :: evs ++ [FsOpen "missing" (Some (PathError "open" "missing" ENOENT));
                        FsClose "d"].
Proof.
  exists None, (state_of (catFiles 4 "d" ["a"; "missing"; "c"]) (mkFsSt cat_fs [])).
  split; [vm_compute; reflexivity|].
  apply (catFiles_open_failure_returns_nil 4 "d" ["a"; "missing"; "c"] cat_fs
           _ _ "missing" (PathError "open" "missing" ENOENT)).
  - vm_compute. reflexivity.
  - in_list.
Defined.

(** A run on a missing second source, in full: [catFiles] returns nil with
    only the first source copied. *)
Example catFiles_missing_source :
  exists st',
    catFiles 4 "d" ["a"; "missing"; "c"] (mkFsSt cat_fs []) = Some (None, st')
    /\ files (fs st') !! "d" = Some (bytes_of "AA")
    /\ fslog st'
       = [FsCreate "d" None; FsOpen "a" None; FsCopy "d" "a" 2 None; FsClose "a";
          FsOpen "missing" (Some (PathError "open" "missing" ENOENT));
          FsClose "d"].
Proof.
  exists (state_of (catFiles 4 "d" ["a"; "missing"; "c"]) (mkFsSt cat_fs [])).
  repeat split; vm_compute; reflexivity.
Qed.

(** C4 (amended): for every call [catFiles(dest, a, b, c)] in which no
    source is the destination itself, the destination can be created and
    every source can be opened and copied, the call returns nil and leaves
    in the destination the bytes of [a], then those of [b], then those of
    [c], as they were when the call was made. *)
Theorem catFiles_concatenates fuel dest a b c da db dc s :
  create_fault s dest = None ->
  source_ok s dest a da ->
  source_ok s dest b db ->
  source_ok s dest c dc ->
  write_ok s dest (length da + length db + length dc) ->
  length da < fuel -> length db < fuel -> length dc < fuel ->
  exists st',
    catFiles fuel dest [a; b; c] (mkFsSt s []) = Some (None, st')
    /\ files (fs st') !! dest = Some (da ++ db ++ dc).
Proof.
  intros Hcreate Ha Hb Hc Hroom Hfa Hfb Hfc.
  destruct (catFiles_concat fuel dest [a; b; c] [da; db; dc] s [])
    as (st' & Hrun & Hdest & _).
  - done.
  - repeat (constructor; [done|]). constructor.
  - simpl. rewrite !length_app. simpl. unfold write_ok in *.
    destruct (write_fault s dest) as [[??]|]; lia.
  - repeat (constructor; [done|]). constructor.
  - exists st'. simpl in Hdest. by rewrite app_nil_r in Hdest.
Qed.

Lemma catFiles_concatenates_witness :
  exists st',
    catFiles 4 "d" ["a"; "b"; "c"] (mkFsSt cat_fs []) = Some (None, st')
    /\ files (fs st') !! "d" = Some (bytes_of "AA" ++ bytes_of "B" ++ bytes_of "CCC").
Proof.
  apply (catFiles_concatenates 4 "d" "a" "b" "c"
           (bytes_of "AA") (bytes_of "B") (bytes_of "CCC") cat_fs).
  - reflexivity.
  - repeat split; try discriminate; reflexivity.
  - repeat split; try discriminate; reflexivity.
  - repeat split; try discriminate; reflexivity.
  - exact I.
  - simpl. lia.
  - simpl. lia.
  - simpl. lia.
Defined.

(** C4 as stated fails when a source is the destination: the destination
    is truncated before it is read, so [catFiles("d", "d", "b", "c")], in
    which every call succeeds, leaves the bytes of [b] and [c] only. *)
Lemma catFiles_destination_among_sources :
  exists st',
    catFiles 4 "d" ["d"; "b"; "c"] (mkFsSt cat_fs []) = Some (None, st')
    /\ create_fault cat_fs "d" = None
    /\ files cat_fs !! "d" = Some (bytes_of "old")
    /\ files cat_fs !! "b" = Some (bytes_of "B")
    /\ files cat_fs !! "c" = Some (bytes_of "CCC")
    /\ fslog st'
       = [FsCreate "d" None;
          FsOpen "d" None; FsCopy "d" "d" 0 None; FsClose "d";
          FsOpen "b" None; FsCopy "d" "b" 1 None; FsClose "b";
          FsOpen "c" None; FsCopy "d" "c" 3 None; FsClose "c";
          FsClose "d"]
    /\ files (fs st') !! "d" = Some (bytes_of "BCCC")
    /\ files (fs st') !! "d"
       <> Some (bytes_of "old" ++ bytes_of "B" ++ bytes_of "CCC").
Proof.
  exists (state_of (catFiles 4 "d" ["d"; "b"; "c"]) (mkFsSt cat_fs [])).
  repeat split; try (vm_compute; reflexivity).
  vm_compute. discriminate.
Qed.



(** ** What every run of the installer does *)

Section Installer.
Context `{ExtTypes} `{!Externals}.

(** Splits the first call off a run recorded in [H] and names its result. *)
Ltac first_call H :=
  let Hc := fresh "Hcall" in
  apply bind_Some in H as (? & ? & Hc & H);
  unfold Services_Get, ServiceAccounts_Create, SCC_Get, SCC_Update,
    client_call, CreateServerCert, RunCmdRegistry, RunCmdRouter,
    glog_V_Infof, in_fs in Hc;
  simpl in Hc;
  repeat match type of Hc with
         | context [match ?x with _ => _ end] => destruct x eqn:?
         end;
  simplify_eq; simpl in H.

(** Ends a run recorded in [H] that returns, and shows the probe's log
    entry. *)
Ltac returned H :=
  apply ret_Some in H as [<- <-]; simpl; eexists; split; [reflexivity|].

Lemma calls_app p (l1 l2 : list Event) :
  calls p (l1 ++ l2) = calls p l1 + calls p l2.
Proof. unfold calls. by rewrite List.filter_app, length_app. Qed.

Lemma calls_cons p ev (l : list Event) :
  calls p (ev :: l) = (if p ev then 1 else 0) + calls p l.
Proof. unfold calls. simpl. by destruct (p ev). Qed.

Lemma calls_fs p (l : list FsEvent) :
  (forall e, p (EvFs e) = false) -> calls p (EvFs <$> l) = 0.
Proof.
  intros Hp. unfold calls. induction l as [|e l IH]; [done|].
  simpl. by rewrite Hp.
Qed.

(** The three ways a run of [InstallRegistry] can go. *)
Lemma InstallRegistry_cases k f configDir tag out w :
  exists r st',
    InstallRegistry k f configDir tag out (mkSt w []) = Some (r, st')
    /\ ((exists svc c1,
           kc_Services_Get k "default" svcDockerRegistry (w_cluster w) = (Ok svc, c1)
           /\ r = None
           /\ st' = mkSt (mkWorld (w_fs w) c1)
                         [EvServicesGet "default" svcDockerRegistry None])
        \/ (exists e c1,
              kc_Services_Get k "default" svcDockerRegistry (w_cluster w) = (Fail e, c1)
              /\ IsNotFound e = false
              /\ r = Some (BootstrapError "error retrieving docker registry service" e)
              /\ st' = mkSt (mkWorld (w_fs w) c1)
                            [EvServicesGet "default" svcDockerRegistry (Some e)])
        \/ (exists e c1 cmd cfg output,
              kc_Services_Get k "default" svcDockerRegistry (w_cluster w) = (Fail e, c1)
              /\ IsNotFound e = true
              /\ Format (rg_ImageTemplate cfg) = imageFormat tag
              /\ ext_RunCmdRegistry f cmd cfg [] (mkWorld (w_fs w) c1)
                 = (output, r, world st')
              /\ log st'
                 = [EvServicesGet "default" svcDockerRegistry (Some e);
                    EvRunCmdRegistry cmd cfg [] r;
                    EvGlog 4 ("Registry command output:" +:+ nl +:+ output)])).
Proof.
  unfold InstallRegistry, bind, Services_Get, client_call. simpl.
  destruct (kc_Services_Get k "default" svcDockerRegistry (w_cluster w))
    as [[svc|e] c1] eqn:Eprobe; simpl.
  - eexists _, _. split; [reflexivity|]. left. by exists svc, c1.
  - destruct (IsNotFound e) eqn:Enf; simpl.
    + unfold RunCmdRegistry, glog_V_Infof. simpl.
      destruct (ext_RunCmdRegistry _ _ _ _ _) as [[output err] w'] eqn:Erun.
      simpl. eexists _, _. split; [reflexivity|]. right. right.
      eexists e, c1, _, _, output.
      split; [done|]. split; [done|]. split; [|split; [exact Erun|done]]. done.
    + eexists _, _. split; [reflexivity|]. right. left. by exists e, c1.
Qed.

(** The ways a run of [InstallRouter] can go: the probe finds the service,
    or the installation stops at the first step that fails, or it reaches
    the delegate. *)
Lemma InstallRouter_cases fuel k f configDir tag hostIP out w r st' :
  InstallRouter fuel k f configDir tag hostIP out (mkSt w []) = Some (r, st') ->
  let probe := kc_Services_Get k "default" "router" (w_cluster w) in
  let sa := EvServiceAccountsCreate "default" {| sa_Name := "router" |} in
  let grant scc :=
    scc_set_Users scc (scc_Users scc ++ [MakeUsername "default" "router"]) in
  exists rest,
    log st' = EvServicesGet "default" "router" (res_err probe.1) :: rest
    /\ match res_err probe.1 with
       | None => r = None /\ rest = [] /\ world st' = mkWorld (w_fs w) probe.2
       | Some _ =>
           (exists e,
              r = Some (BootstrapError "cannot create router service account" e)
              /\ rest = [sa (Some e)])
           \/ (exists e,
                 r = Some (BootstrapError "cannot retrieve privileged SCC" e)
                 /\ rest = [sa None; EvSCCGet "privileged" (Fail e)])
           \/ (exists scc e,
                 r = Some (BootstrapError "cannot update privileged SCC" e)
                 /\ rest = [sa None; EvSCCGet "privileged" (Ok scc);
                            EvSCCUpdate (grant scc) (Some e)])
           \/ (exists scc opts e,
                 r = Some (BootstrapError "cannot create router cert" e)
                 /\ rest = [sa None; EvSCCGet "privileged" (Ok scc);
                            EvSCCUpdate (grant scc) None;
                            EvCreateServerCert opts (Some e)])
           \/ (exists scc opts fsevs e ev,
                 r = Some e
                 /\ ev ∈ fsevs /\ fs_ev_err ev = Some e
                 /\ rest = [sa None; EvSCCGet "privileged" (Ok scc);
                            EvSCCUpdate (grant scc) None;
                            EvCreateServerCert opts None] ++ (EvFs <$> fsevs))
           \/ (exists scc opts fsevs cmd cfg output,
                 Format (rt_ImageTemplate cfg) = imageFormat tag
                 /\ rest = [sa None; EvSCCGet "privileged" (Ok scc);
                            EvSCCUpdate (grant scc) None;
                            EvCreateServerCert opts None] ++ (EvFs <$> fsevs)
                           ++ [EvRunCmdRouter cmd cfg [] r;
                               EvGlog 4 ("Router command output:" +:+ nl +:+ output)])
       end.
Proof.
  intros Hrun probe sa grant. subst probe sa grant. unfold InstallRouter in Hrun.
  first_call Hrun.
  match type of Hrun with context [res_err ?x] => destruct x as [svc|pe] end;
    simpl in *.
  { returned Hrun. done. }
  first_call Hrun.
  match type of Hrun with context [match ?x with Ok _ => _ | Fail _ => _ end] =>
    destruct x as [?|e] end.
  2:{ returned Hrun. left. by exists e. }
  first_call Hrun.
  match type of Hrun with context [match ?x with Ok _ => _ | Fail _ => _ end] =>
    destruct x as [scc|e] end.
  2:{ returned Hrun. right. left. by exists e. }
  first_call Hrun.
  match type of Hrun with context [match ?x with Ok _ => _ | Fail _ => _ end] =>
    destruct x as [?|e] end.
  2:{ returned Hrun. do 2 right. left. by exists scc, e. }
  first_call Hrun.
  match type of Hrun with context [match ?x with Some _ => _ | None => _ end] =>
    destruct x as [e|] end.
  { returned Hrun. do 3 right. left. by eexists scc, _, e. }
  first_call Hrun.
  match goal with
  | E : catFiles _ _ _ _ = Some (?x, ?fst) |- _ =>
      destruct x as [e|]; pose proof (catFiles_trace _ _ _ _ _ _ E) as Htrace
  end.
  { returned Hrun. do 4 right. left.
    destruct Htrace as [(e0 & _ & He & _ & Hlog)|(_ & _ & evs & Hlog & _ & Herr)].
    - eexists scc, _, _, e, _. split; [done|].
      split; [|split; [|reflexivity]].
      + rewrite Hlog. apply list_elem_of_here.
      + done.
    - destruct (Herr e eq_refl) as (ev & Hin & Hev).
      eexists scc, _, _, e, ev. split; [done|].
      split; [|split; [exact Hev|reflexivity]].
      rewrite Hlog. apply elem_of_cons. right. apply elem_of_app. by left. }
  first_call Hrun. first_call Hrun.
  returned Hrun. do 5 right.
  eexists scc, _, _, _, _, _. split; [|by rewrite <- app_assoc]. done.
Qed.

(** Splits the hypothesis [H], which puts an event in a log given in full,
    into the places the event can be at. *)
Ltac where_in_log H :=
  simpl in H;
  repeat (apply elem_of_cons in H as [H|H]; [try discriminate H|]);
  try (apply elem_of_app in H as [H|H]);
  try (apply list_elem_of_fmap in H as (? & H & ?); discriminate H);
  repeat (apply elem_of_cons in H as [H|H]; [try discriminate H|]);
  try (by apply elem_of_nil in H).

(** C2: when the probe finds the target service, [InstallRegistry] and
    [InstallRouter] return nil at once.  The probe is the only call they
    make: no service account is created, no policy read or written, no
    certificate generated, no file touched and no delegate run. *)
Theorem install_returns_when_service_exists
    fuel k f configDir tag hostIP out w :
  (forall svc c1,
     kc_Services_Get k "default" svcDockerRegistry (w_cluster w) = (Ok svc, c1) ->
     InstallRegistry k f configDir tag out (mkSt w [])
     = Some (None, mkSt (mkWorld (w_fs w) c1)
                        [EvServicesGet "default" svcDockerRegistry None]))
  /\ (forall svc c1,
        kc_Services_Get k "default" "router" (w_cluster w) = (Ok svc, c1) ->
        InstallRouter fuel k f configDir tag hostIP out (mkSt w [])
        = Some (None, mkSt (mkWorld (w_fs w) c1)
                           [EvServicesGet "default" "router" None])).
Proof.
  split; intros svc c1 Hprobe.
  - unfold InstallRegistry, bind, Services_Get, client_call. simpl.
    by rewrite Hprobe.
  - unfold InstallRouter, bind, Services_Get, client_call. simpl.
    by rewrite Hprobe.
Qed.

(** C7: when the registry probe fails with an error other than not-found,
    [InstallRegistry] returns the error "error retrieving docker registry
    service" with the probe's error as its cause, and the probe is the only
    call it has made. *)
Theorem InstallRegistry_wraps_probe_error k f configDir tag out w e c1 :
  kc_Services_Get k "default" svcDockerRegistry (w_cluster w) = (Fail e, c1) ->
  IsNotFound e = false ->
  InstallRegistry k f configDir tag out (mkSt w [])
  = Some (Some (BootstrapError "error retrieving docker registry service" e),
          mkSt (mkWorld (w_fs w) c1)
               [EvServicesGet "default" svcDockerRegistry (Some e)]).
Proof.
  intros Hprobe Hnf.
  unfold InstallRegistry, bind, Services_Get, client_call. simpl.
  rewrite Hprobe. simpl. by rewrite Hnf.
Qed.

(** C10: [InstallRegistry] does not depend on [configDir]: two calls that
    differ in it only have the same outcome, that is the same returned
    error, the same calls logged with the same arguments, the delegate's
    configuration among them, and the same final world; and none of the
    calls it makes is a file call or a certificate generation. *)
Theorem InstallRegistry_ignores_configDir k f configDir1 configDir2 tag out w :
  exists r st',
    InstallRegistry k f configDir1 tag out (mkSt w []) = Some (r, st')
    /\ InstallRegistry k f configDir2 tag out (mkSt w []) = Some (r, st')
    /\ Forall (fun ev => is_Fs ev = false /\ is_CreateServerCert ev = false)
         (log st').
Proof.
  destruct (InstallRegistry_cases k f configDir1 tag out w)
    as (r & st' & Hrun & Hcases).
  exists r, st'. split; [exact Hrun|]. split; [exact Hrun|].
  destruct Hcases as [(svc & c1 & _ & _ & ->)
                     |[(e & c1 & _ & _ & _ & ->)
                      |(e & c1 & cmd & cfg & output & _ & _ & _ & _ & ->)]];
    simpl; by repeat constructor.
Qed.

(** C6: whatever the tag, non-empty or not, the configuration the
    registry delegate and the router delegate are run with has the image
    template format "openshift/origin-${component}:" followed by the tag. *)
Theorem delegates_get_imageFormat fuel k f configDir tag hostIP out w :
  (forall r st' cmd cfg args err,
     InstallRegistry k f configDir tag out (mkSt w []) = Some (r, st') ->
     EvRunCmdRegistry cmd cfg args err ∈ log st' ->
     Format (rg_ImageTemplate cfg) = "openshift/origin-${component}:" +:+ tag)
  /\ (forall r st' cmd cfg args err,
        InstallRouter fuel k f configDir tag hostIP out (mkSt w []) = Some (r, st') ->
        EvRunCmdRouter cmd cfg args err ∈ log st' ->
        Format (rt_ImageTemplate cfg) = "openshift/origin-${component}:" +:+ tag).
Proof.
  split; intros r st' cmd cfg args err Hrun Hin.
  - destruct (InstallRegistry_cases k f configDir tag out w)
      as (r0 & st0 & Hrun0 & Hcases).
    rewrite Hrun in Hrun0. simplify_eq.
    destruct Hcases as [(svc & c1 & _ & _ & ->)
                       |[(e & c1 & _ & _ & _ & ->)
                        |(e & c1 & cmd0 & cfg0 & output & _ & _ & Hfmt & _ & Hlog)]].
    + where_in_log Hin.
    + where_in_log Hin.
    + rewrite Hlog in Hin. where_in_log Hin. by simplify_eq.
  - apply InstallRouter_cases in Hrun as (rest & Hlog & Hcases).
    rewrite Hlog in Hin. clear Hlog.
    apply elem_of_cons in Hin as [Hin|Hin]; [discriminate|].
    destruct (res_err _) as [pe|].
    + destruct Hcases as [(e & _ & ->)|[(e & _ & ->)|[(scc & e & _ & ->)
        |[(scc & opts & e & _ & ->)|[(scc & opts & fsevs & e & ev & _ & _ & _ & ->)
        |(scc & opts & fsevs & cmd0 & cfg0 & output & Hfmt & ->)]]]]];
        where_in_log Hin.
      by simplify_eq.
    + destruct Hcases as (_ & -> & _). by apply elem_of_nil in Hin.
Qed.

(** C3: whenever [InstallRouter] writes the privileged policy back, the
    list of users it writes is the list it read followed by the router's
    identity: every identity that was authorized is still in it, and so is
    the router's. *)
Theorem router_grant_keeps_identities
    fuel k f configDir tag hostIP out w r st' scc' err :
  InstallRouter fuel k f configDir tag hostIP out (mkSt w []) = Some (r, st') ->
  EvSCCUpdate scc' err ∈ log st' ->
  exists scc,
    EvSCCGet "privileged" (Ok scc) ∈ log st'
    /\ scc_Users scc' = scc_Users scc ++ [MakeUsername "default" "router"]
    /\ (forall u, u ∈ scc_Users scc -> u ∈ scc_Users scc')
    /\ MakeUsername "default" "router" ∈ scc_Users scc'
    /\ scc_Name scc' = scc_Name scc
    /\ scc_rest scc' = scc_rest scc.
Proof.
  intros Hrun Hin.
  apply InstallRouter_cases in Hrun as (rest & Hlog & Hcases).
  rewrite Hlog in *. clear Hlog.
  apply elem_of_cons in Hin as [Hin|Hin]; [discriminate|].
  assert (Hgrant : forall scc,
    scc' = scc_set_Users scc (scc_Users scc ++ [MakeUsername "default" "router"]) ->
    EvSCCGet "privileged" (Ok scc) ∈ rest ->
    exists scc,
      EvSCCGet "privileged" (Ok scc)
        ∈ EvServicesGet "default" "router"
            (res_err (kc_Services_Get k "default" "router" (w_cluster w)).1) :: rest
      /\ scc_Users scc' = scc_Users scc ++ [MakeUsername "default" "router"]
      /\ (forall u, u ∈ scc_Users scc -> u ∈ scc_Users scc')
      /\ MakeUsername "default" "router" ∈ scc_Users scc'
      /\ scc_Name scc' = scc_Name scc
      /\ scc_rest scc' = scc_rest scc).
  { intros scc -> Hget. exists scc. simpl.
    split; [by apply list_elem_of_further|]. split; [done|].
    split; [intros u Hu; apply elem_of_app; by left|].
    split; [|done]. apply elem_of_app. right. apply list_elem_of_here. }
  destruct (res_err _) as [pe|].
  - destruct Hcases as [(e & _ & ->)|[(e & _ & ->)|[(scc & e & _ & ->)
      |[(scc & opts & e & _ & ->)|[(scc & opts & fsevs & e & ev & _ & _ & _ & ->)
      |(scc & opts & fsevs & cmd0 & cfg0 & output & Hfmt & ->)]]]]];
      where_in_log Hin; simplify_eq; (eapply Hgrant; [reflexivity|find_in_list]).
  - destruct Hcases as (_ & -> & _). by apply elem_of_nil in Hin.
Qed.

Lemma steps_ok_inv ev (l : list Event) :
  steps_ok (ev :: l) -> ev_err ev = None /\ steps_ok l.
Proof. unfold steps_ok. intros Hok. by apply Forall_cons in Hok. Qed.

Lemma steps_ok_fs (l : list FsEvent) l' e ev :
  ev ∈ l -> fs_ev_err ev = Some e -> ~ steps_ok ((EvFs <$> l) ++ l').
Proof.
  intros Hin Hev Hok. unfold steps_ok in Hok.
  apply Forall_app in Hok as [Hok _]. rewrite Forall_forall in Hok.
  specialize (Hok (EvFs ev)). simpl in Hok. rewrite Hev in Hok.
  assert (Some e = None); [|discriminate].
  apply Hok. apply list_elem_of_fmap. by exists ev.
Qed.

(** C5: in a run in which the target service is absent and every step
    succeeds, [InstallRouter] creates a service account once, reads the
    policy once, writes it once, generates a certificate once and runs its
    delegate once; and [InstallRegistry] runs its delegate once. *)
Theorem install_runs_each_step_once fuel k f configDir tag hostIP out w :
  (forall r st',
     InstallRouter fuel k f configDir tag hostIP out (mkSt w []) = Some (r, st') ->
     absent k "router" w ->
     steps_ok (tail (log st')) ->
     calls is_ServiceAccountsCreate (log st') = 1
     /\ calls is_SCCGet (log st') = 1
     /\ calls is_SCCUpdate (log st') = 1
     /\ calls is_CreateServerCert (log st') = 1
     /\ calls is_RunCmdRouter (log st') = 1)
  /\ (forall r st',
        InstallRegistry k f configDir tag out (mkSt w []) = Some (r, st') ->
        absent k svcDockerRegistry w ->
        steps_ok (tail (log st')) ->
        calls is_RunCmdRegistry (log st') = 1).
Proof.
  split; intros r st' Hrun (pe & c & Hprobe & Hnf) Hok.
  - apply InstallRouter_cases in Hrun as (rest & Hlog & Hcases).
    rewrite Hlog in *. clear Hlog. rewrite Hprobe in Hcases. simpl in *.
    destruct Hcases as [(e & _ & ->)|[(e & _ & ->)|[(scc & e & _ & ->)
      |[(scc & opts & e & _ & ->)|[(scc & opts & fsevs & e & ev & _ & Hin & Hev & ->)
      |(scc & opts & fsevs & cmd0 & cfg0 & output & Hfmt & ->)]]]]].
    + by apply steps_ok_inv in Hok as [? _].
    + by apply steps_ok_inv in Hok as (_ & [? _]%steps_ok_inv).
    + by apply steps_ok_inv in Hok as (_ & (_ & [? _]%steps_ok_inv)%steps_ok_inv).
    + by apply steps_ok_inv in Hok
        as (_ & (_ & (_ & [? _]%steps_ok_inv)%steps_ok_inv)%steps_ok_inv).
    + do 4 apply steps_ok_inv in Hok as [_ Hok].
      rewrite <- (app_nil_r (EvFs <$> fsevs)) in Hok.
      by destruct (steps_ok_fs _ _ _ _ Hin Hev Hok).
    + rewrite !calls_cons, !calls_app, !calls_fs by done. done.
  - destruct (InstallRegistry_cases k f configDir tag out w)
      as (r0 & st0 & Hrun0 & Hcases).
    rewrite Hrun in Hrun0. simplify_eq.
    destruct Hcases as [(svc & c1 & ? & _)
                       |[(e & c1 & ? & ? & _)
                        |(e & c1 & cmd0 & cfg0 & output & _ & _ & _ & _ & Hlog)]];
      [congruence | congruence |].
    by rewrite Hlog.
Qed.

(** C8: [InstallRouter] treats every error of its probe alike.  A run whose
    probe fails with any error, a transport or permission failure as well,
    never returns that error: it installs the router.  From the probe on it
    makes the calls, returns the result and leaves the world of the run
    whose probe reports the service absent; and its whole outcome is fixed
    by what the calls of the installation return, step by step: the
    account is created, the privileged policy read, extended by the
    router's identity and written back, the certificate generated, the
    bundle assembled and the delegate run; the first step that fails ends
    the run with that step's error, the delegate's result is returned
    otherwise, and the run returns whenever the assembly of the bundle
    does. *)
Theorem InstallRouter_installs_on_any_probe_error
    fuel k1 k2 f configDir tag hostIP out w e1 e2 c1 :
  kc_ServiceAccounts_Create k1 = kc_ServiceAccounts_Create k2 ->
  kc_SCC_Get k1 = kc_SCC_Get k2 ->
  kc_SCC_Update k1 = kc_SCC_Update k2 ->
  kc_Services_Get k1 "default" "router" (w_cluster w) = (Fail e1, c1) ->
  kc_Services_Get k2 "default" "router" (w_cluster w) = (Fail e2, c1) ->
  IsNotFound e2 = true ->
  let run := InstallRouter fuel k1 f configDir tag hostIP out (mkSt w []) in
  let masterDir := filepath_Join configDir "master" in
  let probe := EvServicesGet "default" "router" (Some e1) in
  let account := EvServiceAccountsCreate "default" {| sa_Name := "router" |} in
  let opts :=
    {| cc_SignerCertOptions :=
         {| sg_CertFile := filepath_Join masterDir "ca.crt";
            sg_KeyFile := filepath_Join masterDir "ca.key";
            sg_SerialFile := filepath_Join masterDir "ca.serial.txt" |};
       cc_Overwrite := true;
       cc_Hostnames := [hostIP +:+ ".xip.io"];
       cc_CertFile := filepath_Join masterDir "router.crt";
       cc_KeyFile := filepath_Join masterDir "router.key" |} in
  let cfg :=
    {| rt_Name := "router";
       rt_Type := "haproxy-router";
       rt_ImageTemplate :=
         {| Format := imageFormat tag; Latest := Latest NewDefaultImageTemplate |};
       rt_Ports := "80:80,443:443";
       rt_Replicas := 1;
       rt_Labels := "router=<name>";
       rt_Credentials := filepath_Join masterDir "admin.kubeconfig";
       rt_DefaultCertificate := filepath_Join masterDir "router.pem";
       rt_StatsPort := 1936;
       rt_StatsUsername := "admin";
       rt_HostNetwork := true;
       rt_HostPorts := true;
       rt_ServiceAccount := "router" |} in
  let cmd := Cmd_SetOutput (NewCmdRouter f EmptyString "router" out) in
  after_probe run
  = after_probe (InstallRouter fuel k2 f configDir tag hostIP out (mkSt w []))
  /\ match kc_ServiceAccounts_Create k1 "default" {| sa_Name := "router" |} c1 with
     | (Fail e, c2) =>
         run = Some (Some (BootstrapError "cannot create router service account" e),
                     mkSt (mkWorld (w_fs w) c2) [probe; account (Some e)])
     | (Ok _, c2) =>
     match kc_SCC_Get k1 "privileged" c2 with
     | (Fail e, c3) =>
         run = Some (Some (BootstrapError "cannot retrieve privileged SCC" e),
                     mkSt (mkWorld (w_fs w) c3)
                       [probe; account None; EvSCCGet "privileged" (Fail e)])
     | (Ok scc, c3) =>
     let granted :=
       scc_set_Users scc (scc_Users scc ++ [MakeUsername "default" "router"]) in
     match kc_SCC_Update k1 granted c3 with
     | (Fail e, c4) =>
         run = Some (Some (BootstrapError "cannot update privileged SCC" e),
                     mkSt (mkWorld (w_fs w) c4)
                       [probe; account None; EvSCCGet "privileged" (Ok scc);
                        EvSCCUpdate granted (Some e)])
     | (Ok _, c4) =>
     let prepared err :=
       [probe; account None; EvSCCGet "privileged" (Ok scc);
        EvSCCUpdate granted None; EvCreateServerCert opts err] in
     match ext_CreateServerCert opts (mkWorld (w_fs w) c4) with
     | (Some e, w5) =>
         run = Some (Some (BootstrapError "cannot create router cert" e),
                     mkSt w5 (prepared (Some e)))
     | (None, w5) =>
     match catFiles fuel (filepath_Join masterDir "router.pem")
             [filepath_Join masterDir "router.crt";
              filepath_Join masterDir "router.key";
              filepath_Join masterDir "ca.crt"] (mkFsSt (w_fs w5) []) with
     | None => run = None
     | Some (Some e, files) =>
         run = Some (Some e,
                     mkSt (mkWorld (fs files) (w_cluster w5))
                       (prepared None ++ (EvFs <$> fslog files)))
     | Some (None, files) =>
     match ext_RunCmdRouter f cmd cfg [] (mkWorld (fs files) (w_cluster w5)) with
     | (output, err, w7) =>
         run = Some (err,
                     mkSt w7
                       (prepared None ++ (EvFs <$> fslog files)
                        ++ [EvRunCmdRouter cmd cfg [] err;
                            EvGlog 4 ("Router command output:" +:+ nl +:+ output)]))
     end end end end end end.
Proof.
  intros Hsa Hget Hupd Hp1 Hp2 _. cbv zeta. split.
  - unfold InstallRouter, bind, Services_Get, ServiceAccounts_Create, SCC_Get,
      SCC_Update, client_call. simpl.
    rewrite Hp1, Hp2, Hsa, Hget, Hupd. simpl.
    destruct (kc_ServiceAccounts_Create k2 _ _ c1) as [[?|?] c2]; simpl; [|done].
    destruct (kc_SCC_Get k2 _ c2) as [[scc|?] c3]; simpl; [|done].
    destruct (kc_SCC_Update k2 _ c3) as [[?|?] c4]; simpl; [|done].
    unfold CreateServerCert. simpl.
    destruct (ext_CreateServerCert _ _) as [[?|] w5]; simpl; [done|].
    unfold in_fs. simpl.
    destruct (catFiles _ _ _ _) as [[[?|] fst6]|]; simpl; [done| |done].
    unfold RunCmdRouter. simpl.
    by destruct (ext_RunCmdRouter _ _ _ _ _) as [[output err] w7].
  - unfold InstallRouter, bind, Services_Get, ServiceAccounts_Create, SCC_Get,
      SCC_Update, client_call. simpl.
    rewrite Hp1. simpl.
    destruct (kc_ServiceAccounts_Create k1 _ _ c1) as [[?|?] c2]; simpl; [|done].
    destruct (kc_SCC_Get k1 _ c2) as [[scc|?] c3]; simpl; [|done].
    destruct (kc_SCC_Update k1 _ c3) as [[?|?] c4]; simpl; [|done].
    unfold CreateServerCert. simpl.
    destruct (ext_CreateServerCert _ _) as [[?|] w5]; simpl; [done|].
    unfold in_fs. simpl.
    destruct (catFiles _ _ _ _) as [[[?|] fst6]|]; simpl; [done| |done].
    unfold RunCmdRouter, rt_set_Format. simpl.
    destruct (ext_RunCmdRouter _ _ _ _ _) as [[output err] w7]. simpl.
    unfold glog_V_Infof. simpl. by rewrite <- !app_assoc.
Qed.

End Installer.

(** ** The installer on the cluster held in memory *)

Lemma install_returns_when_service_exists_witness :
  fake_InstallRegistry "/cfg" "v1.3" tt (fake_start fake_installed_world)
  = Some (None,
          @mkSt fakeTypes
            (@mkWorld fakeTypes (w_fs fake_installed_world)
               (w_cluster fake_installed_world))
            [EvServicesGet "default" svcDockerRegistry None])
  /\ fake_InstallRouter 8 "/cfg" "v1.3" "10.0.0.1" tt (fake_start fake_installed_world)
     = Some (None,
             @mkSt fakeTypes
               (@mkWorld fakeTypes (w_fs fake_installed_world)
                  (w_cluster fake_installed_world))
               [EvServicesGet "default" "router" None]).
Proof.
  destruct (@install_returns_when_service_exists fakeTypes fakeExternals
              8 fakeClient tt "/cfg" "v1.3" "10.0.0.1" tt fake_installed_world)
    as [Hregistry Hrouter].
  split.
  - apply (Hregistry svcDockerRegistry). reflexivity.
  - apply (Hrouter "router"). reflexivity.
Defined.

Lemma InstallRegistry_wraps_probe_error_witness :
  fake_InstallRegistry "/cfg" "v1.3" tt
    (fake_start (fake_world (Some fake_forbidden)))
  = Some (Some (BootstrapError "error retrieving docker registry service"
                  fake_forbidden),
          @mkSt fakeTypes
            (@mkWorld fakeTypes fake_fs (fake_cluster (Some fake_forbidden)))
            [EvServicesGet "default" svcDockerRegistry (Some fake_forbidden)]).
Proof.
  apply (@InstallRegistry_wraps_probe_error fakeTypes fakeExternals
           fakeClient tt "/cfg" "v1.3" tt (fake_world (Some fake_forbidden))).
  - reflexivity.
  - reflexivity.
Defined.

Lemma delegates_get_imageFormat_witness :
  (@EvRunCmdRegistry fakeTypes "registry" fake_registry_cfg [] None ∈ log fake_registry_end
   /\ Format (rg_ImageTemplate fake_registry_cfg)
      = "openshift/origin-${component}:" +:+ "v1.3")
  /\ (@EvRunCmdRouter fakeTypes "router" fake_router_cfg [] None ∈ log fake_router_end
      /\ Format (rt_ImageTemplate fake_router_cfg)
         = "openshift/origin-${component}:" +:+ "v1.3").
Proof.
  destruct (@delegates_get_imageFormat fakeTypes fakeExternals
              8 fakeClient tt "/cfg" "v1.3" "10.0.0.1" tt (fake_world None))
    as [Hregistry Hrouter].
  split; split; try in_list.
  - apply (Hregistry None fake_registry_end "registry" fake_registry_cfg [] None);
      [vm_compute; reflexivity | in_list].
  - apply (Hrouter None fake_router_end "router" fake_router_cfg [] None);
      [vm_compute; reflexivity | in_list].
Defined.

Lemma router_grant_keeps_identities_witness :
  exists scc,
    @EvSCCGet fakeTypes "privileged" (Ok scc) ∈ log fake_router_end
    /\ scc_Users fake_granted = scc_Users scc ++ [MakeUsername "default" "router"]
    /\ (forall u, u ∈ scc_Users scc -> u ∈ scc_Users fake_granted)
    /\ MakeUsername "default" "router" ∈ scc_Users fake_granted
    /\ scc_Name fake_granted = scc_Name scc
    /\ scc_rest fake_granted = scc_rest scc.
Proof.
  apply (@router_grant_keeps_identities fakeTypes fakeExternals
           8 fakeClient tt "/cfg" "v1.3" "10.0.0.1" tt (fake_world None)
           None fake_router_end fake_granted None).
  - vm_compute. reflexivity.
  - in_list.
Defined.

Lemma install_runs_each_step_once_witness :
  (calls is_ServiceAccountsCreate (log fake_router_end) = 1
   /\ calls is_SCCGet (log fake_router_end) = 1
   /\ calls is_SCCUpdate (log fake_router_end) = 1
   /\ calls is_CreateServerCert (log fake_router_end) = 1
   /\ calls is_RunCmdRouter (log fake_router_end) = 1)
  /\ calls is_RunCmdRegistry (log fake_registry_end) = 1.
Proof.
  destruct (@install_runs_each_step_once fakeTypes fakeExternals
              8 fakeClient tt "/cfg" "v1.3" "10.0.0.1" tt (fake_world None))
    as [Hrouter Hregistry].
  split.
  - apply (Hrouter None fake_router_end).
    + vm_compute. reflexivity.
    + exists (fake_not_found "router"), (fake_cluster None). split; reflexivity.
    + vm_compute. repeat constructor.
  - apply (Hregistry None fake_registry_end).
    + vm_compute. reflexivity.
    + exists (fake_not_found svcDockerRegistry), (fake_cluster None).
      split; reflexivity.
    + vm_compute. repeat constructor.
Defined.

Lemma InstallRouter_installs_on_any_probe_error_witness :
  after_probe (@InstallRouter fakeTypes fakeExternals 8
                 (fake_denied_client fake_forbidden) tt "/cfg" "v1.3" "10.0.0.1" tt
                 (fake_start (fake_world None)))
  = after_probe (fake_InstallRouter 8 "/cfg" "v1.3" "10.0.0.1" tt
                   (fake_start (fake_world None)))
  /\ @InstallRouter fakeTypes fakeExternals 8
       (fake_denied_client fake_forbidden) tt "/cfg" "v1.3" "10.0.0.1" tt
       (fake_start (fake_world None))
     = Some (None,
             @mkSt fakeTypes (world fake_router_end)
               (EvServicesGet "default" "router" (Some fake_forbidden)
                  :: tail (log fake_router_end))).
Proof.
  pose proof (@InstallRouter_installs_on_any_probe_error fakeTypes fakeExternals
                8 (fake_denied_client fake_forbidden) fakeClient tt
                "/cfg" "v1.3" "10.0.0.1" tt (fake_world None)
                fake_forbidden (fake_not_found "router") (fake_cluster None)
                eq_refl eq_refl eq_refl eq_refl eq_refl eq_refl) as Hrouter.
  cbv zeta in Hrouter. destruct Hrouter as [Hsame Hrun].
  split; [exact Hsame|]. clear Hsame.
  change (@mkSt fakeTypes (fake_world None) []) with (fake_start (fake_world None))
    in Hrun.
  revert Hrun.
  generalize (@InstallRouter fakeTypes fakeExternals 8
                (fake_denied_client fake_forbidden) tt "/cfg" "v1.3" "10.0.0.1" tt
                (fake_start (fake_world None))).
  intros run. vm_compute. intros Hrun. exact Hrun.
Defined.

(** A run whose probe is refused, in full: the installer still creates the
    account, extends the policy, writes the certificate files and runs the
    delegate, as in the installation on the fresh cluster. *)
Example InstallRouter_after_forbidden_probe :
  after_probe (@InstallRouter fakeTypes fakeExternals 8
                 (fake_denied_client fake_forbidden) tt "/cfg" "v1.3" "10.0.0.1" tt
                 (fake_start (fake_world None)))
  = Some (None, world fake_router_end, tail (log fake_router_end))
  /\ calls is_RunCmdRouter (log fake_router_end) = 1
  /\ files (w_fs (world fake_router_end)) !! "/cfg/master/router.pem"
     = Some (bytes_of "CERTKEYCA").
Proof.
  repeat split; vm_compute; reflexivity.
Qed.

(** ** More on what copying does *)

Local Open Scope list_scope.

Lemma fs_Write_effect f b s :
  exists fit,
    fs_Write f b s
    = (length fit, (fs_Write f b s).1.1.2, advance f (length fit), (fs_Write f b s).2)
    /\ length fit <= length b
    /\ (length fit = length b -> fit = b)
    /\ ((fs_Write f b s).1.1.2 = None -> fit = b)
    /\ (forall p, p <> f_name f ->
          files (fs_Write f b s).2 !! p = files s !! p)
    /\ (f_off f = length (content s (f_name f)) ->
          content (fs_Write f b s).2 (f_name f) = content s (f_name f) ++ fit).
Proof.
  unfold fs_Write. simpl.
  set (fit := match write_fault s (f_name f) with
              | Some (cap, _) => take (cap - f_off f) b
              | None => b
              end).
  exists fit. split; [reflexivity|].
  assert (Hfit : length fit <= length b /\ (length fit = length b -> fit = b)).
  { subst fit. destruct (write_fault s (f_name f)) as [[cap e]|]; [|done].
    rewrite length_take. split; [lia|]. intros Hlen. apply take_ge. lia. }
  destruct Hfit as [Hle Hsame]. split; [done|]. split; [done|]. split.
  { destruct (write_fault s (f_name f)) as [[cap e]|] eqn:Efault; [|by subst fit].
    destruct (bool_decide (length fit < length b)) eqn:Elt; [done|].
    intros _. apply Hsame. apply bool_decide_eq_false in Elt. lia. }
  split.
  - intros p Hp. destruct fit; [done|]. simpl. by rewrite lookup_insert_ne.
  - intros Hoff. destruct fit as [|x fit'] eqn:Efit; [by rewrite app_nil_r|].
    unfold content at 1. simpl. rewrite lookup_insert_eq. simpl.
    rewrite Hoff. apply write_at_end.
Qed.

Lemma fs_Read_effect f n s :
  exists buf er,
    fs_Read f n s = (buf, er, advance f (length buf))
    /\ f_name (advance f (length buf)) = f_name f
    /\ (er = Some EOF -> buf = [])
    /\ (f_off f < length (content s (f_name f)) -> 0 < n ->
          er <> Some EOF /\ (er = None -> 0 < length buf)
          /\ f_off f + length buf <= length (content s (f_name f))).
Proof.
  unfold fs_Read.
  destruct (drop (f_off f) (content s (f_name f))) as [|x avail] eqn:Edrop.
  - exists [], (Some EOF). simpl. rewrite advance_0.
    split; [reflexivity|]. split; [done|]. split; [done|].
    intros Hlt _. apply (f_equal length) in Edrop. rewrite length_drop in Edrop.
    simpl in Edrop. lia.
  - assert (Hlen : length (x :: avail) = length (content s (f_name f)) - f_off f)
      by (by rewrite <- Edrop, length_drop).
    destruct (read_fault s (f_name f)) as [[k e]|].
    + destruct (bool_decide (k <= f_off f)) eqn:Ek.
      * eexists [], _. simpl. rewrite advance_0. split; [reflexivity|].
        split; [done|]. split; [done|]. intros Hlt Hn.
        split; [done|]. split; [done|]. simpl. lia.
      * apply bool_decide_eq_false in Ek.
        eexists _, None. split; [reflexivity|].
        split; [done|]. split; [done|]. intros Hlt Hn.
        split; [done|]. split.
        -- intros _. destruct (n `min` (k - f_off f)) eqn:Emin; [lia|].
           simpl. lia.
        -- rewrite length_take. lia.
    + eexists _, None. split; [reflexivity|].
      split; [done|]. split; [done|]. intros Hlt Hn.
      split; [done|]. split.
      * intros _. destruct n; [lia|]. simpl. lia.
      * rewrite length_take. lia.
Qed.

(** A copy changes one file only, the one written to, and only by adding
    to its end the bytes it reports as written. *)
Lemma copyBuffer_effect fuel : forall dst src written s written' err dst' s',
  copyBuffer fuel dst src written s = Some (written', err, dst', s') ->
  f_name dst' = f_name dst
  /\ (forall p, p <> f_name dst -> files s' !! p = files s !! p)
  /\ (f_off dst = length (content s (f_name dst)) ->
        exists added,
          content s' (f_name dst) = content s (f_name dst) ++ added
          /\ f_off dst' = f_off dst + length added
          /\ written' = written + length added).
Proof.
  induction fuel as [|fuel IH];
    intros dst src written s written' err dst' s' Hrun; [discriminate|].
  rewrite copyBuffer_S in Hrun.
  destruct (fs_Read_effect src copyBufSize s) as (buf & er & Hr & _).
  rewrite Hr in Hrun. clear Hr.
  destruct (fs_Write_effect dst buf s) as (fit & Hw & _ & _ & _ & Hframe & Hgrow).
  cbv beta iota zeta in Hrun.
  assert (Hnone : f_off dst = length (content s (f_name dst)) ->
    exists added, content s (f_name dst) = content s (f_name dst) ++ added
      /\ f_off dst = f_off dst + length added /\ written = written + length added).
  { intros _. exists []. rewrite app_nil_r. simpl. split; [done|lia]. }
  destruct (bool_decide (0 < length buf)).
  - rewrite Hw in Hrun. cbv beta iota zeta in Hrun.
    set (s1 := (fs_Write dst buf s).2) in *.
    assert (Hw' : (if bool_decide (0 < length fit) then written + length fit
                   else written) = written + length fit).
    { destruct (bool_decide (0 < length fit)) eqn:E; [done|].
      apply bool_decide_eq_false in E. lia. }
    rewrite Hw' in Hrun.
    assert (Hone : f_off dst = length (content s (f_name dst)) ->
      exists added, content s1 (f_name dst) = content s (f_name dst) ++ added
        /\ f_off (advance dst (length fit)) = f_off dst + length added
        /\ written + length fit = written + length added).
    { intros Hoff. exists fit. by rewrite Hgrow. }
    destruct (match (fs_Write dst buf s).1.1.2 with
              | Some _ => (fs_Write dst buf s).1.1.2
              | None => if bool_decide (length buf ≠ length fit)
                        then Some ErrShortWrite else None
              end) as [ew|]; [by simplify_eq|].
    destruct er as [[]|]; try by simplify_eq.
    apply IH in Hrun as (Hname & Hframe' & Hgrow').
    split; [done|]. split.
    + intros p Hp. rewrite Hframe' by done. by apply Hframe.
    + intros Hoff. destruct (Hone Hoff) as (added1 & Hc1 & Ho1 & Hw1).
      destruct Hgrow' as (added2 & Hc2 & Ho2 & Hw2).
      { simpl. rewrite Hc1, length_app. simpl in Ho1. lia. }
      exists (added1 ++ added2). simpl in *.
      split; [by rewrite Hc2, Hc1, app_assoc|]. rewrite length_app. lia.
  - destruct er as [[]|]; try by simplify_eq.
    apply IH in Hrun as (Hname & Hframe' & Hgrow'). done.
Qed.

(** ** More on what every run of catFiles does *)

Lemma fs_Open_Ok name s in_ : fs_Open name s = Ok in_ -> in_ = mkFile name 0.
Proof.
  unfold fs_Open. intros Hopen. by repeat case_match; simplify_eq.
Qed.

(** One round of the loop: the open fails and the loop returns nil, or the
    source is copied and closed, and the loop returns the copy's error or
    goes on. *)
Lemma catFiles_loop_cons fuel out f src st r st' :
  catFiles_loop fuel out None (f :: src) st = Some (r, st') ->
  (exists e,
     fs_Open f (fs st) = Fail e
     /\ r = None
     /\ st' = mkFsSt (fs st) (fslog st ++ [FsOpen f (Some e)]))
  \/ (exists written err out' s1,
        fs_Open f (fs st) = Ok (mkFile f 0)
        /\ copyBuffer fuel out (mkFile f 0) 0 (fs st) = Some (written, err, out', s1)
        /\ match err with
           | Some e =>
               r = Some e
               /\ st' = mkFsSt s1 (fslog st ++ [FsOpen f None;
                                                FsCopy (f_name out) f written err;
                                                FsClose f])
           | None =>
               catFiles_loop fuel out' None src
                 (mkFsSt s1 (fslog st ++ [FsOpen f None;
                                          FsCopy (f_name out) f written None;
                                          FsClose f]))
               = Some (r, st')
           end).
Proof.
  intros Hrun. simpl in Hrun.
  apply bind_Some in Hrun as (ro & st1 & Hopen & Hrun).
  unfold os_Open in Hopen. simplify_eq.
  destruct (fs_Open f (fs st)) as [in_|e0] eqn:Eopen.
  - apply fs_Open_Ok in Eopen as Hin. subst in_. right.
    apply bind_Some in Hrun as ([[written err] out'] & st2 & Hcopy & Hrun).
    unfold io_Copy in Hcopy. simpl in Hcopy.
    destruct (copyBuffer fuel out (mkFile f 0) 0 (fs st))
      as [[[[w1 e1] o1] s1]|] eqn:Ecopy; [|discriminate].
    simplify_eq.
    apply bind_Some in Hrun as ([] & st3 & Hclose & Hrun).
    unfold file_Close in Hclose. simplify_eq. simpl in Hrun.
    exists written, err, out', s1. split; [done|]. split; [done|].
    rewrite <- !app_assoc in Hrun. simpl in Hrun.
    destruct err as [e1|]; [|done].
    by apply ret_Some in Hrun as [<- <-].
  - left. simpl in Hrun. apply ret_Some in Hrun as [<- <-]. by exists e0.
Qed.

Lemma fs_calls_app p (l1 l2 : list FsEvent) :
  fs_calls p (l1 ++ l2) = fs_calls p l1 + fs_calls p l2.
Proof. unfold fs_calls. by rewrite List.filter_app, length_app. Qed.

Lemma total_written_app (l1 l2 : list FsEvent) :
  total_written (l1 ++ l2) = total_written l1 + total_written l2.
Proof. unfold total_written. by rewrite sum_list_with_app. Qed.

(** What the loop keeps: handles are closed as they are taken, no file but
    the destination changes, and the destination grows by what the copies
    report. *)
Lemma catFiles_loop_keeps dest src : forall fuel out st r st',
  catFiles_loop fuel out None src st = Some (r, st') ->
  f_name out = dest ->
  exists evs,
    fslog st' = fslog st ++ evs
    /\ (forall name,
          fs_calls (is_closed name) evs = fs_calls (is_opened name) evs
          /\ fs_calls (is_created name) evs = 0)
    /\ (forall p, p <> dest -> files (fs st') !! p = files (fs st) !! p)
    /\ (f_off out = length (content (fs st) dest) ->
          length (content (fs st') dest)
          = length (content (fs st) dest) + total_written evs).
Proof.
  induction src as [|f src IH]; intros fuel out st r st' Hrun Hname.
  - apply ret_Some in Hrun as [<- <-]. exists []. rewrite app_nil_r.
    repeat split; try done; try (intros _; unfold total_written; simpl; lia).
  - apply catFiles_loop_cons in Hrun
      as [(e & _ & -> & ->)|(written & err & out' & s1 & _ & Hcopy & Hrest)].
    + exists [FsOpen f (Some e)]. simpl.
      repeat split; try done; try (intros _; unfold total_written; simpl; lia).
    + apply copyBuffer_effect in Hcopy as (Hname' & Hframe & Hgrow).
      rewrite Hname in *.
      assert (Hbal : forall name,
        fs_calls (is_closed name) [FsOpen f None; FsCopy dest f written err; FsClose f]
        = fs_calls (is_opened name) [FsOpen f None; FsCopy dest f written err; FsClose f]
        /\ fs_calls (is_created name)
             [FsOpen f None; FsCopy dest f written err; FsClose f] = 0).
      { intros name. unfold fs_calls. simpl.
        by destruct (bool_decide (f = name)). }
      assert (Hlen : f_off out = length (content (fs st) dest) ->
        length (content s1 dest)
        = length (content (fs st) dest)
          + total_written [FsOpen f None; FsCopy dest f written err; FsClose f]
        /\ f_off out' = length (content s1 dest)).
      { intros Hoff. destruct (Hgrow Hoff) as (added & Hc & Ho & Hw).
        rewrite Hc, length_app. unfold total_written. simpl. lia. }
      destruct err as [e|].
      * destruct Hrest as [-> ->]. simpl. eexists. split; [reflexivity|].
        split; [done|]. split; [done|]. intros Hoff. by apply Hlen.
      * apply IH in Hrest as (evs & Hlog & Hbal' & Hframe' & Hgrow'); [|done].
        simpl in *.
        exists ([FsOpen f None; FsCopy dest f written None; FsClose f] ++ evs).
        split; [by rewrite Hlog, <- app_assoc|]. split; [|split].
        -- intros name. rewrite !fs_calls_app.
           destruct (Hbal name) as [-> ->]. destruct (Hbal' name) as [-> ->]. done.
        -- intros p Hp. rewrite Hframe' by done. by apply Hframe.
        -- intros Hoff. destruct (Hlen Hoff) as [Hl Ho].
           rewrite total_written_app, Hgrow' by done.
           unfold total_written in *. simpl. lia.
Qed.

(** A failed copy ends the loop: its error is what the loop returns, and
    closing the source is the last thing the loop does.  The loop returns
    no error but that of a copy into the destination. *)
Lemma catFiles_loop_copy_error dest src : forall fuel out st r st',
  catFiles_loop fuel out None src st = Some (r, st') ->
  f_name out = dest ->
  exists evs,
    fslog st' = fslog st ++ evs
    /\ (forall d name n e, FsCopy d name n (Some e) ∈ evs ->
          r = Some e
          /\ exists evs0, evs = evs0 ++ [FsCopy d name n (Some e); FsClose name])
    /\ (forall e, r = Some e ->
          exists name n, FsCopy dest name n (Some e) ∈ evs)
    /\ (forall ev, ev ∈ evs ->
          match ev with
          | FsCreate _ _ => False
          | FsOpen name _ => name ∈ src
          | FsCopy d name _ _ => d = dest /\ name ∈ src
          | FsClose name => name ∈ src
          end).
Proof.
  induction src as [|f src IH]; intros fuel out st r st' Hrun Hname.
  - apply ret_Some in Hrun as [<- <-]. exists []. rewrite app_nil_r.
    split; [done|]. split; [|split]; try done.
    + intros d name n e Hin. by apply elem_of_nil in Hin.
    + intros ev Hin. by apply elem_of_nil in Hin.
  - apply catFiles_loop_cons in Hrun
      as [(e & _ & -> & ->)|(written & err & out' & s1 & _ & Hcopy & Hrest)].
    + exists [FsOpen f (Some e)]. simpl. split; [done|]. split; [|split]; try done.
      * intros d name n e' Hin. not_in_list Hin.
      * intros ev Hin. apply list_elem_of_singleton in Hin as ->.
        apply list_elem_of_here.
    + apply copyBuffer_effect in Hcopy as (Hname' & _ & _).
      rewrite Hname in *.
      assert (Hnames : forall ev,
        ev ∈ [FsOpen f None; FsCopy dest f written err; FsClose f] ->
        match ev with
        | FsCreate _ _ => False
        | FsOpen name _ => name ∈ f :: src
        | FsCopy d name _ _ => d = dest /\ name ∈ f :: src
        | FsClose name => name ∈ f :: src
        end).
      { intros ev Hin.
        repeat (apply elem_of_cons in Hin as [->|Hin];
                [try split; try done; apply list_elem_of_here|]).
        by apply elem_of_nil in Hin. }
      destruct err as [e|].
      * destruct Hrest as [-> ->]. simpl. eexists. split; [reflexivity|].
        split; [|split; [|done]].
        -- intros d name n e' Hin.
           apply elem_of_cons in Hin as [Hin|Hin]; [discriminate|].
           apply elem_of_cons in Hin as [Hin|Hin]; [|not_in_list Hin].
           simplify_eq. split; [done|]. by exists [FsOpen f None].
        -- intros e' [= <-]. exists f, written. find_in_list.
      * apply IH in Hrest as (evs & Hlog & Hfail & Herr & Hin'); [|done].
        simpl in *.
        exists ([FsOpen f None; FsCopy dest f written None; FsClose f] ++ evs).
        split; [by rewrite Hlog, <- app_assoc|]. split; [|split].
        -- intros d name n e Hin.
           apply elem_of_app in Hin as [Hin|Hin]; [not_in_list Hin|].
           destruct (Hfail d name n e Hin) as (-> & evs0 & ->).
           split; [done|]. eexists. by rewrite app_assoc.
        -- intros e He. destruct (Herr e He) as (name & n & Hin).
           exists name, n. apply elem_of_app. by right.
        -- intros ev Hin. apply elem_of_app in Hin as [Hin|Hin]; [by apply Hnames|].
           specialize (Hin' ev Hin). destruct ev; try done.
           ++ by apply list_elem_of_further.
           ++ destruct Hin'. split; [done|]. by apply list_elem_of_further.
           ++ by apply list_elem_of_further.
Qed.

Lemma catFiles_inv fuel dest src s lg r st' :
  catFiles fuel dest src (mkFsSt s lg) = Some (r, st') ->
  (exists e,
     create_fault s dest = Some e
     /\ r = Some (PathError "open" dest e)
     /\ st' = mkFsSt s (lg ++ [FsCreate dest r]))
  \/ (create_fault s dest = None
      /\ exists st2,
           catFiles_loop fuel (mkFile dest 0) None src
             (mkFsSt (set_files s (<[dest := []]> (files s)))
                     (lg ++ [FsCreate dest None]))
           = Some (r, st2)
           /\ st' = mkFsSt (fs st2) (fslog st2 ++ [FsClose dest])).
Proof.
  intros Hrun. unfold catFiles in Hrun.
  apply bind_Some in Hrun as (rc & st1 & Hcreate & Hrun).
  unfold os_Create, fs_Create in Hcreate. simpl in Hcreate.
  destruct (create_fault s dest) as [e|] eqn:Ecreate; simplify_eq; simpl in Hrun.
  - apply ret_Some in Hrun as [<- <-]. left. by exists e.
  - right. split; [done|].
    apply bind_Some in Hrun as (r1 & st2 & Hloop & Hrun).
    apply bind_Some in Hrun as ([] & st3 & Hclose & Hrun).
    apply ret_Some in Hrun as [<- <-].
    unfold file_Close in Hclose. simplify_eq. by exists st2.
Qed.

(** X1: [catFiles] returns a non-nil error exactly when creating the
    destination or copying a source fails, and it is then the error of that
    call; after a failed copy it closes the source and the destination and
    does nothing more. *)
Theorem catFiles_returns_error_of_create_or_copy fuel dest src s r st' :
  catFiles fuel dest src (mkFsSt s []) = Some (r, st') ->
  (forall e,
     r = Some e <->
     FsCreate dest (Some e) ∈ fslog st'
     \/ exists name n, FsCopy dest name n (Some e) ∈ fslog st')
  /\ (forall d name n e,
        FsCopy d name n (Some e) ∈ fslog st' ->
        exists evs,
          fslog st' = evs ++ [FsCopy d name n (Some e); FsClose name; FsClose dest]).
Proof.
  intros Hrun.
  apply catFiles_inv in Hrun as [(e0 & _ & -> & ->)|(_ & st2 & Hloop & ->)]; simpl.
  - split.
    + intros e. split.
      * intros [= <-]. left. apply list_elem_of_here.
      * intros [Hin|(name & n & Hin)]; [|not_in_list Hin].
        apply list_elem_of_singleton in Hin. by simplify_eq.
    + intros d name n e Hin. not_in_list Hin.
  - apply (catFiles_loop_copy_error dest) in Hloop
      as (evs & Hlog & Hfail & Herr & Hnames); [|done].
    simpl in Hlog. rewrite Hlog. split.
    + intros e. split.
      * intros He. right. destruct (Herr e He) as (name & n & Hin).
        exists name, n. apply elem_of_cons. right.
        apply elem_of_app. left. done.
      * intros [Hin|(name & n & Hin)].
        -- apply elem_of_cons in Hin as [Hin|Hin]; [discriminate|].
           apply elem_of_app in Hin as [Hin|Hin]; [|not_in_list Hin].
           by destruct (Hnames _ Hin).
        -- apply elem_of_cons in Hin as [Hin|Hin]; [discriminate|].
           apply elem_of_app in Hin as [Hin|Hin]; [|not_in_list Hin].
           by destruct (Hfail _ _ _ _ Hin) as [-> _].
    + intros d name n e Hin.
      apply elem_of_cons in Hin as [Hin|Hin]; [discriminate|].
      apply elem_of_app in Hin as [Hin|Hin]; [|not_in_list Hin].
      destruct (Hfail _ _ _ _ Hin) as (_ & evs0 & ->).
      exists (FsCreate dest None :: evs0). simpl. by rewrite <- !app_assoc.
Qed.

Lemma catFiles_returns_error_of_create_or_copy_witness :
  (Some (PathError "read" "b" EIO) = Some (PathError "read" "b" EIO) <->
   FsCreate "d" (Some (PathError "read" "b" EIO))
     ∈ fslog (state_of (catFiles 4 "d" ["a"; "b"; "c"])
                (mkFsSt cat_fs_unreadable []))
   \/ exists name n,
        FsCopy "d" name n (Some (PathError "read" "b" EIO))
          ∈ fslog (state_of (catFiles 4 "d" ["a"; "b"; "c"])
                     (mkFsSt cat_fs_unreadable [])))
  /\ exists evs,
       fslog (state_of (catFiles 4 "d" ["a"; "b"; "c"])
                (mkFsSt cat_fs_unreadable []))
       = evs ++ [FsCopy "d" "b" 0 (Some (PathError "read" "b" EIO));
                 FsClose "b"; FsClose "d"].
Proof.
  assert (Hrun :
    catFiles 4 "d" ["a"; "b"; "c"] (mkFsSt cat_fs_unreadable [])
    = Some (Some (PathError "read" "b" EIO),
            state_of (catFiles 4 "d" ["a"; "b"; "c"]) (mkFsSt cat_fs_unreadable [])))
    by (vm_compute; reflexivity).
  destruct (catFiles_returns_error_of_create_or_copy 4 "d" ["a"; "b"; "c"]
              cat_fs_unreadable _ _ Hrun) as [Hiff Hlast].
  split; [apply Hiff|]. apply Hlast. in_list.
Defined.

(** X2: [catFiles] closes every file it has opened: in the calls of a run,
    each path is closed as often as it was successfully created or
    opened, whether the run ends in an error or not. *)
Theorem catFiles_closes_what_it_opens fuel dest src s r st' name :
  catFiles fuel dest src (mkFsSt s []) = Some (r, st') ->
  fs_calls (is_closed name) (fslog st')
  = fs_calls (is_created name) (fslog st') + fs_calls (is_opened name) (fslog st').
Proof.
  intros Hrun.
  apply catFiles_inv in Hrun as [(e0 & _ & -> & ->)|(_ & st2 & Hloop & ->)]; simpl.
  - done.
  - apply (catFiles_loop_keeps dest) in Hloop as (evs & Hlog & Hbal & _); [|done].
    simpl in Hlog. rewrite Hlog.
    change (FsCreate dest None :: evs) with ([FsCreate dest None] ++ evs).
    rewrite !fs_calls_app. destruct (Hbal name) as [-> ->].
    unfold fs_calls. simpl. destruct (bool_decide (dest = name)); simpl; lia.
Qed.

Lemma catFiles_closes_what_it_opens_witness :
  fs_calls (is_closed "a")
    (fslog (state_of (catFiles 4 "d" ["a"; "b"; "a"]) (mkFsSt cat_fs_unreadable [])))
  = fs_calls (is_created "a")
      (fslog (state_of (catFiles 4 "d" ["a"; "b"; "a"]) (mkFsSt cat_fs_unreadable [])))
    + fs_calls (is_opened "a")
        (fslog (state_of (catFiles 4 "d" ["a"; "b"; "a"]) (mkFsSt cat_fs_unreadable []))).
Proof.
  apply (catFiles_closes_what_it_opens 4 "d" ["a"; "b"; "a"] cat_fs_unreadable
           (Some (PathError "read" "b" EIO))).
  vm_compute. reflexivity.
Defined.

(** X3: [catFiles] changes no file but the destination: every other path
    holds after the call what it held before, whether the call succeeds,
    fails or stops at a source it cannot open; and if the destination
    cannot be created, no file changes at all. *)
Theorem catFiles_changes_destination_only fuel dest src s r st' :
  catFiles fuel dest src (mkFsSt s []) = Some (r, st') ->
  (forall p, p <> dest -> files (fs st') !! p = files s !! p)
  /\ (forall e, create_fault s dest = Some e -> fs st' = s).
Proof.
  intros Hrun.
  apply catFiles_inv in Hrun as [(e0 & He0 & -> & ->)|(Hnone & st2 & Hloop & ->)];
    simpl.
  - done.
  - split; [|congruence].
    apply (catFiles_loop_keeps dest) in Hloop as (evs & _ & _ & Hframe & _); [|done].
    intros p Hp. rewrite Hframe by done. simpl. by rewrite lookup_insert_ne.
Qed.

Lemma catFiles_changes_destination_only_witness :
  (forall p, p <> "d" ->
     files (fs (state_of (catFiles 4 "d" ["a"; "b"; "c"])
                  (mkFsSt cat_fs_unreadable []))) !! p
     = files cat_fs_unreadable !! p)
  /\ fs (state_of (catFiles 4 "d" ["a"; "b"; "c"]) (mkFsSt cat_fs_readonly []))
     = cat_fs_readonly.
Proof.
  split.
  - apply (catFiles_changes_destination_only 4 "d" ["a"; "b"; "c"] cat_fs_unreadable
             (Some (PathError "read" "b" EIO))).
    vm_compute. reflexivity.
  - destruct (catFiles_changes_destination_only 4 "d" ["a"; "b"; "c"] cat_fs_readonly
                (Some (PathError "open" "d" EACCES))
                (state_of (catFiles 4 "d" ["a"; "b"; "c"]) (mkFsSt cat_fs_readonly [])))
      as [_ Hsame]; [vm_compute; reflexivity|].
    apply (Hsame EACCES). reflexivity.
Defined.

(** X4: once the destination is created, it holds at the end of the call
    exactly as many bytes as the copies report as written, whatever it held
    before and however the call ends. *)
Theorem catFiles_destination_holds_bytes_written fuel dest src s r st' :
  catFiles fuel dest src (mkFsSt s []) = Some (r, st') ->
  create_fault s dest = None ->
  length (content (fs st') dest) = total_written (fslog st').
Proof.
  intros Hrun Hcreate.
  apply catFiles_inv in Hrun as [(e0 & He0 & _)|(_ & st2 & Hloop & ->)];
    [congruence|].
  apply (catFiles_loop_keeps dest) in Hloop as (evs & Hlog & _ & _ & Hgrow); [|done].
  simpl in *. rewrite Hlog, Hgrow.
  - unfold content at 1. simpl. rewrite lookup_insert_eq. simpl.
    change (FsCreate dest None :: evs) with ([FsCreate dest None] ++ evs).
    rewrite !total_written_app. unfold total_written. simpl. lia.
  - unfold content. simpl. by rewrite lookup_insert_eq.
Qed.

Lemma catFiles_destination_holds_bytes_written_witness :
  length (content (fs (state_of (catFiles 4 "d" ["a"; "b"; "c"])
                         (mkFsSt cat_fs_unreadable []))) "d")
  = total_written (fslog (state_of (catFiles 4 "d" ["a"; "b"; "c"])
                            (mkFsSt cat_fs_unreadable []))).
Proof.
  apply (catFiles_destination_holds_bytes_written 4 "d" ["a"; "b"; "c"]
           cat_fs_unreadable (Some (PathError "read" "b" EIO))).
  - vm_compute. reflexivity.
  - reflexivity.
Defined.

(** X5: for any number of sources, none of them the destination, that can
    all be opened and copied, [catFiles] returns nil and leaves in the
    destination the bytes of the sources in the order given; a source
    given twice is copied twice, and with no source the destination is
    left empty.  No other file changes. *)
Theorem catFiles_concatenates_all fuel dest srcs datas s :
  create_fault s dest = None ->
  Forall2 (source_ok s dest) srcs datas ->
  write_ok s dest (length (concat datas)) ->
  Forall (fun d => length d < fuel) datas ->
  exists st',
    catFiles fuel dest srcs (mkFsSt s []) = Some (None, st')
    /\ files (fs st') !! dest = Some (concat datas)
    /\ forall p, p <> dest -> files (fs st') !! p = files s !! p.
Proof. apply catFiles_concat. Qed.

Lemma catFiles_concatenates_all_witness :
  exists st',
    catFiles 4 "d" ["a"; "c"; "a"; "b"] (mkFsSt cat_fs []) = Some (None, st')
    /\ files (fs st') !! "d"
       = Some (concat [bytes_of "AA"; bytes_of "CCC"; bytes_of "AA"; bytes_of "B"])
    /\ forall p, p <> "d" -> files (fs st') !! p = files cat_fs !! p.
Proof.
  apply (catFiles_concatenates_all 4 "d" ["a"; "c"; "a"; "b"]
           [bytes_of "AA"; bytes_of "CCC"; bytes_of "AA"; bytes_of "B"] cat_fs).
  - reflexivity.
  - repeat (constructor; [repeat split; try discriminate; reflexivity|]).
    constructor.
  - exact I.
  - repeat (constructor; [simpl; lia|]). constructor.
Defined.

Lemma fs_Open_after_write s dest name new :
  name <> dest ->
  fs_Open name (set_files s (<[dest := new]> (files s))) = fs_Open name s.
Proof.
  intros Hne. unfold fs_Open. simpl. by rewrite lookup_insert_ne.
Qed.

(** The loop on sources of which the first that cannot be opened comes
    after sources that can all be copied. *)
Lemma catFiles_loop_until_missing dest fuel bad rest e good :
  forall datas out s lg cur,
  f_name out = dest ->
  f_off out = length cur ->
  files s !! dest = Some cur ->
  Forall2 (source_ok s dest) good datas ->
  bad <> dest ->
  fs_Open bad s = Fail e ->
  write_ok s dest (length cur + length (concat datas)) ->
  Forall (fun d => length d < fuel) datas ->
  exists lg',
    catFiles_loop fuel out None (good ++ bad :: rest) (mkFsSt s lg)
    = Some (None,
            mkFsSt (set_files s (<[dest := cur ++ concat datas]> (files s)))
                   (lg' ++ [FsOpen bad (Some e)])).
Proof.
  induction good as [|f good IH];
    intros datas out s lg cur Hname Hoff Hcur Hsrc Hbad Hopen Hroom Hfuel.
  - apply Forall2_nil_inv_l in Hsrc as ->. simpl.
    unfold bind, os_Open. simpl. rewrite Hopen. simpl.
    rewrite app_nil_r, insert_id, set_files_id by done. by exists lg.
  - apply Forall2_cons_inv_l in Hsrc as (d & datas' & Hf & Hrest & ->).
    apply Forall_cons in Hfuel as [Hd Hfuel].
    simpl in Hroom. rewrite length_app in Hroom.
    destruct Hf as (Hne & Hfile & Hopenf & Hread).
    simpl. unfold bind, os_Open, fs_Open, io_Copy, file_Close. simpl.
    rewrite Hopenf, Hfile. simpl.
    rewrite (copyBuffer_appends fuel out (mkFile f 0) 0 s d cur); simpl;
      try rewrite Hname; try done; try lia;
      [| unfold write_ok in *; destruct (write_fault s dest) as [[??]|]; lia].
    rewrite Nat.sub_0_r, drop_0.
    edestruct (IH datas' (advance out (length d))
                 (set_files s (<[dest := cur ++ d]> (files s)))
                 ((lg ++ [FsOpen f None]) ++ [FsCopy dest f (length d) None]
                    ++ [FsClose f])
                 (cur ++ d)) as [lg' Hrun].
    + done.
    + simpl. rewrite length_app. lia.
    + simpl. by rewrite lookup_insert_eq.
    + eapply Forall2_impl; [exact Hrest|].
      intros f' d' Hok. by apply source_ok_after_write.
    + done.
    + by rewrite fs_Open_after_write.
    + unfold write_ok in *. simpl. rewrite length_app.
      destruct (write_fault s dest) as [[??]|]; lia.
    + done.
    + exists lg'. rewrite <- app_assoc in Hrun. simpl in Hrun.
      rewrite <- !app_assoc. simpl. rewrite Hrun. do 3 f_equal.
      unfold set_files. simpl. f_equal.
      rewrite insert_insert_eq. by rewrite <- app_assoc.
Qed.

(** X6: when the sources up to some point can be copied and the next one
    cannot be opened, [catFiles] returns nil and leaves in the destination
    the bytes of the sources before it, all of them and nothing else; the
    failed open and the closing of the destination are its last calls, so
    no later source is opened. *)
Theorem catFiles_stops_at_missing_source fuel dest good datas bad rest e s :
  create_fault s dest = None ->
  Forall2 (source_ok s dest) good datas ->
  bad <> dest ->
  fs_Open bad s = Fail e ->
  write_ok s dest (length (concat datas)) ->
  Forall (fun d => length d < fuel) datas ->
  exists st' evs,
    catFiles fuel dest (good ++ bad :: rest) (mkFsSt s []) = Some (None, st')
    /\ files (fs st') !! dest = Some (concat datas)
    /\ fslog st' = evs ++ [FsOpen bad (Some e); FsClose dest].
Proof.
  intros Hcreate Hsrc Hbad Hopen Hroom Hfuel.
  unfold catFiles, bind, os_Create, fs_Create. simpl. rewrite Hcreate. simpl.
  edestruct (catFiles_loop_until_missing dest fuel bad rest e good datas
               (mkFile dest 0) (set_files s (<[dest := []]> (files s)))
               [FsCreate dest None] []) as [lg' Hrun]; try done.
  - simpl. by rewrite lookup_insert_eq.
  - eapply Forall2_impl; [exact Hsrc|].
    intros f' d' Hok. by apply source_ok_after_write.
  - by rewrite fs_Open_after_write.
  - rewrite Hrun. unfold file_Close. simpl. eexists _, lg'.
    split; [reflexivity|]. simpl. split.
    + by rewrite lookup_insert_eq.
    + by rewrite <- app_assoc.
Qed.

Lemma catFiles_stops_at_missing_source_witness :
  exists st' evs,
    catFiles 4 "d" (["a"; "b"] ++ "missing" :: ["c"]) (mkFsSt cat_fs [])
    = Some (None, st')
    /\ files (fs st') !! "d" = Some (concat [bytes_of "AA"; bytes_of "B"])
    /\ fslog st'
       = evs ++ [FsOpen "missing" (Some (PathError "open" "missing" ENOENT));
                 FsClose "d"].
Proof.
  apply (catFiles_stops_at_missing_source 4 "d" ["a"; "b"]
           [bytes_of "AA"; bytes_of "B"] "missing" ["c"]
           (PathError "open" "missing" ENOENT) cat_fs).
  - reflexivity.
  - repeat (constructor; [repeat split; try discriminate; reflexivity|]).
    constructor.
  - discriminate.
  - reflexivity.
  - exact I.
  - repeat (constructor; [simpl; lia|]). constructor.
Defined.

(** ** The destination as one of the sources *)

Lemma fs_Read_cases f n s :
  0 < n ->
  (length (content s (f_name f)) <= f_off f
   /\ fs_Read f n s = ([], Some EOF, f))
  \/ (f_off f < length (content s (f_name f))
      /\ exists buf er,
           fs_Read f n s = (buf, er, advance f (length buf))
           /\ er <> Some EOF
           /\ (er = None -> 0 < length buf)
           /\ f_off f + length buf <= length (content s (f_name f))).
Proof.
  intros Hn. destruct (decide (f_off f < length (content s (f_name f)))) as [Hlt|Hge].
  - right. split; [done|].
    destruct (fs_Read_effect f n s) as (buf & er & Hr & _ & _ & Hfacts).
    exists buf, er. split; [done|]. by apply Hfacts.
  - left. split; [lia|]. apply fs_Read_at_end. lia.
Qed.

Lemma fs_Write_same_faults f b s :
  open_fault (fs_Write f b s).2 = open_fault s.
Proof.
  unfold fs_Write. simpl.
  by destruct (match write_fault s (f_name f) with
               | Some (cap, _) => take (cap - f_off f) b
               | None => b
               end).
Qed.

Lemma copyBuffer_same_faults fuel : forall dst src written s written' err dst' s',
  copyBuffer fuel dst src written s = Some (written', err, dst', s') ->
  open_fault s' = open_fault s.
Proof.
  induction fuel as [|fuel IH];
    intros dst src written s written' err dst' s' Hrun; [discriminate|].
  rewrite copyBuffer_S in Hrun.
  destruct (fs_Read src copyBufSize s) as [[buf er] src1].
  pose proof (fs_Write_same_faults dst buf s) as Hw.
  destruct (fs_Write dst buf s) as [[[nw ew] dst1] s1]. simpl in Hw.
  cbv beta iota zeta in Hrun.
  destruct (bool_decide (0 < length buf));
    repeat case_match; simplify_eq; try done;
    apply IH in Hrun; congruence.
Qed.

(** A copy that returns no error has written all the unread bytes of its
    source, when the source is not the file written to. *)
Lemma copyBuffer_complete fuel : forall dst src written s written' dst' s',
  f_name src <> f_name dst ->
  copyBuffer fuel dst src written s = Some (written', None, dst', s') ->
  written' = written + (length (content s (f_name src)) - f_off src).
Proof.
  induction fuel as [|fuel IH];
    intros dst src written s written' dst' s' Hne Hrun; [discriminate|].
  rewrite copyBuffer_S in Hrun.
  destruct (fs_Read_cases src copyBufSize s copyBufSize_pos)
    as [[Hle Hr]|(Hlt & buf & er & Hr & Hneof & Hpos & Hlen)];
    rewrite Hr in Hrun; cbv beta iota zeta in Hrun.
  - simpl in Hrun. simplify_eq. lia.
  - destruct (fs_Write_effect dst buf s) as (fit & Hw & _ & Hsame & _ & Hframe & _).
    destruct (bool_decide (0 < length buf)) eqn:Enr.
    + rewrite Hw in Hrun. cbv beta iota zeta in Hrun.
      destruct ((fs_Write dst buf s).1.1.2); [by simplify_eq|].
      destruct (bool_decide (length buf ≠ length fit)) eqn:Eshort; [by simplify_eq|].
      apply bool_decide_eq_false in Eshort.
      assert (Hfit : length fit = length buf)
        by (destruct (decide (length buf = length fit)); [done|by destruct Eshort]).
      destruct er as [[]|]; try (by simplify_eq).
      apply IH in Hrun; [|done].
      unfold content in Hrun. rewrite Hframe in Hrun by done.
      fold (content s (f_name src)) in Hrun. simpl in Hrun.
      apply bool_decide_eq_true in Enr.
      rewrite bool_decide_eq_true_2 in Hrun by lia. unfold content in *. lia.
    + apply bool_decide_eq_false in Enr.
      destruct er as [[]|]; try (by simplify_eq).
      specialize (Hpos eq_refl). lia.
Qed.

(** A copy of a file that holds bytes into that same file, written at its
    end, does not come to an end of the bytes to read: it returns an error
    or does not return. *)
Lemma copyBuffer_into_itself fuel : forall dst src written s written' err dst' s',
  f_name src = f_name dst ->
  f_off dst = length (content s (f_name dst)) ->
  f_off src < length (content s (f_name dst)) ->
  copyBuffer fuel dst src written s = Some (written', err, dst', s') ->
  err <> None.
Proof.
  induction fuel as [|fuel IH];
    intros dst src written s written' err dst' s' Hname Hoff Hlt Hrun;
    [discriminate|].
  rewrite copyBuffer_S in Hrun.
  destruct (fs_Read_cases src copyBufSize s copyBufSize_pos)
    as [[Hle Hr]|(_ & buf & er & Hr & Hneof & Hpos & Hlen)];
    [rewrite Hname in Hle; lia|].
  destruct (fs_Write_effect dst buf s) as (fit & Hw & _ & Hsame & _ & _ & Hgrow).
  rewrite Hr in Hrun. cbv beta iota zeta in Hrun.
  rewrite Hname in Hlen.
  destruct (bool_decide (0 < length buf)) eqn:Enr.
  - rewrite Hw in Hrun. cbv beta iota zeta in Hrun.
    destruct ((fs_Write dst buf s).1.1.2); [by simplify_eq|].
    destruct (bool_decide (length buf ≠ length fit)) eqn:Eshort; [by simplify_eq|].
    apply bool_decide_eq_false in Eshort.
    assert (Hfit : length fit = length buf)
      by (destruct (decide (length buf = length fit)); [done|by destruct Eshort]).
    apply bool_decide_eq_true in Enr.
    destruct er as [[]|]; try (by simplify_eq).
    apply IH in Hrun; [done|done| |]; cbn [f_name f_off advance].
    + rewrite (Hgrow Hoff), length_app. lia.
    + rewrite (Hgrow Hoff), length_app. lia.
  - apply bool_decide_eq_false in Enr.
    destruct er as [[]|]; try (by simplify_eq).
    specialize (Hpos eq_refl). lia.
Qed.

(** X7: the destination cannot serve as a source after a source that
    holds bytes.  Where the destination can be created and can be opened
    for reading, and [a] is another file, not empty, that can be opened and
    read, [catFiles(dest, a, dest, ...)] never returns nil: if [a] is
    copied, copying the destination into itself reads the bytes it has just
    written and so finds no end; the call fails with the error of a read or
    write, or does not return.  (A destination that cannot be opened for
    reading is the case of C1: that call stops at the failed open and
    returns nil.) *)
Theorem catFiles_destination_as_later_source fuel dest a da rest s r st' :
  create_fault s dest = None ->
  source_ok s dest a da ->
  da <> [] ->
  open_fault s dest = None ->
  catFiles fuel dest (a :: dest :: rest) (mkFsSt s []) = Some (r, st') ->
  r <> None.
Proof.
  intros Hcreate (Hne & Hfile & Hopen & _) Hda Hopend Hrun.
  apply catFiles_inv in Hrun as [(e0 & He0 & _)|(_ & st2 & Hloop & _)];
    [congruence|].
  apply catFiles_loop_cons in Hloop
    as [(e & Hfail & _)|(written & err & out' & s1 & _ & Hcopy & Hrest)].
  { unfold fs_Open in Hfail. simpl in Hfail.
    by rewrite Hopen, lookup_insert_ne, Hfile in Hfail. }
  destruct err as [e|]; [by destruct Hrest as [-> _]|].
  simpl in Hcopy, Hrest.
  pose proof (copyBuffer_complete fuel (mkFile dest 0) (mkFile a 0)
                _ _ _ _ _ Hne Hcopy) as Hall.
  pose proof (copyBuffer_same_faults _ _ _ _ _ _ _ _ _ Hcopy) as Hfaults.
  pose proof (copyBuffer_keeps dest _ _ _ _ _ _ _ _ _ Hcopy) as Hkeep.
  apply copyBuffer_effect in Hcopy as (Hname & _ & Hgrow). simpl in *.
  destruct Hgrow as (added & Hc & Ho & Hw).
  { unfold content. simpl. by rewrite lookup_insert_eq. }
  assert (Hlen : length added = length da).
  { unfold content in Hall. simpl in Hall.
    rewrite lookup_insert_ne, Hfile in Hall by done. simpl in Hall. lia. }
  assert (0 < length da) by (destruct da; [done|simpl; lia]).
  assert (Hempty : content (set_files s (<[dest := []]> (files s))) dest = []).
  { unfold content. simpl. by rewrite lookup_insert_eq. }
  apply catFiles_loop_cons in Hrest
    as [(e & Hfail & _)|(written2 & err2 & out2 & s2 & _ & Hcopy2 & Hrest)].
  { unfold fs_Open in Hfail. simpl in Hfail. rewrite Hfaults in Hfail.
    simpl in Hfail. rewrite Hopend in Hfail.
    destruct Hkeep as [x Hx]; [by rewrite lookup_insert_eq|].
    by rewrite Hx in Hfail. }
  apply copyBuffer_into_itself in Hcopy2; simpl; try done.
  - destruct err2 as [e|]; [by destruct Hrest as [-> _]|done].
  - rewrite Hname, Hc, Hempty. simpl. lia.
  - rewrite Hname, Hc, Hempty. simpl. lia.
Qed.

Lemma catFiles_destination_as_later_source_witness :
  catFiles 8 "d" ["a"; "d"; "c"] (mkFsSt cat_fs_small [])
  = Some (Some (PathError "write" "d" ENOSPC),
          state_of (catFiles 8 "d" ["a"; "d"; "c"]) (mkFsSt cat_fs_small []))
  /\ Some (PathError "write" "d" ENOSPC) <> None.
Proof.
  split; [vm_compute; reflexivity|].
  apply (catFiles_destination_as_later_source 8 "d" "a" (bytes_of "AA") ["c"]
           cat_fs_small (Some (PathError "write" "d" ENOSPC))
           (state_of (catFiles 8 "d" ["a"; "d"; "c"]) (mkFsSt cat_fs_small []))).
  - reflexivity.
  - repeat split; try discriminate; reflexivity.
  - discriminate.
  - reflexivity.
  - vm_compute. reflexivity.
Defined.

(** ** More on what every run of the installer does *)

(** What the calls of a run of [catFiles] tell about its result and about
    the paths it was given. *)
Lemma catFiles_calls fuel dest src s rc fsst :
  catFiles fuel dest src (mkFsSt s []) = Some (rc, fsst) ->
  (forall p e, FsCreate p (Some e) ∈ fslog fsst -> rc = Some e)
  /\ (forall d name n e, FsCopy d name n (Some e) ∈ fslog fsst -> rc = Some e)
  /\ (forall name e, FsOpen name (Some e) ∈ fslog fsst -> rc = None)
  /\ (forall p e, FsCreate p e ∈ fslog fsst -> p = dest)
  /\ (forall name e, FsOpen name e ∈ fslog fsst -> name ∈ src)
  /\ (rc = None -> FsCreate dest None ∈ fslog fsst).
Proof.
  intros Hrun.
  pose proof (catFiles_trace _ _ _ _ _ _ Hrun) as Htrace.
  apply catFiles_inv in Hrun as [(e0 & _ & -> & ->)|(Hnone & st2 & Hloop & ->)];
    simpl.
  - split; [|split; [|split; [|split; [|split]]]]; try done.
    + intros p e Hin. apply list_elem_of_singleton in Hin. by simplify_eq.
    + intros d name n e Hin. not_in_list Hin.
    + intros name e Hin. not_in_list Hin.
    + intros p e Hin. apply list_elem_of_singleton in Hin. by simplify_eq.
    + intros name e Hin. not_in_list Hin.
  - apply (catFiles_loop_copy_error dest) in Hloop
      as (evs & Hlog & Hfail & _ & Hnames); [|done].
    simpl in Hlog. rewrite Hlog.
    assert (Hevs : forall ev, ev ∈ FsCreate dest None :: evs ++ [FsClose dest] ->
              ev = FsCreate dest None \/ ev ∈ evs \/ ev = FsClose dest).
    { intros ev Hin. apply elem_of_cons in Hin as [Hin|Hin]; [by left|].
      apply elem_of_app in Hin as [Hin|Hin]; [by right; left|].
      apply list_elem_of_singleton in Hin. by right; right. }
    split; [|split; [|split; [|split; [|split]]]].
    + intros p e Hin. apply Hevs in Hin as [Hin|[Hin|Hin]]; try discriminate.
      by destruct (Hnames _ Hin).
    + intros d name n e Hin. apply Hevs in Hin as [Hin|[Hin|Hin]]; try discriminate.
      by destruct (Hfail _ _ _ _ Hin) as [-> _].
    + intros name e Hin.
      destruct Htrace as [(e0 & He0 & _)|(_ & _ & evs' & Hlog' & Hopen & _)];
        [congruence|].
      simpl in Hlog'. rewrite Hlog in Hlog'.
      injection Hlog' as Heq. apply app_inv_tail in Heq as ->.
      apply Hevs in Hin as [Hin|[Hin|Hin]]; try discriminate.
      by destruct (Hopen _ _ Hin) as [-> _].
    + intros p e Hin. apply Hevs in Hin as [Hin|[Hin|Hin]]; try discriminate.
      * by simplify_eq.
      * by destruct (Hnames _ Hin).
    + intros name e Hin. apply Hevs in Hin as [Hin|[Hin|Hin]]; try discriminate.
      by apply (Hnames _ Hin).
    + intros _. apply list_elem_of_here.
Qed.

Section InstallerSteps.
Context `{ExtTypes} `{!Externals}.

(** Splits the first call off a run recorded in [H]. *)
Ltac next_call H :=
  let Hc := fresh "Hcall" in
  apply bind_Some in H as (? & ? & Hc & H);
  unfold Services_Get, ServiceAccounts_Create, SCC_Get, SCC_Update,
    client_call, CreateServerCert, RunCmdRegistry, RunCmdRouter,
    glog_V_Infof, in_fs in Hc;
  simpl in Hc;
  repeat match type of Hc with
         | context [match ?x with _ => _ end] => destruct x eqn:?
         end;
  simplify_eq; simpl in H.

(** Splits the hypothesis [H], which puts an event in a log given in full,
    into the places the event can be at. *)
Ltac split_log H :=
  simpl in H;
  repeat (apply elem_of_cons in H as [H|H]; [try discriminate H|]);
  try (apply elem_of_app in H as [H|H]);
  try (apply list_elem_of_fmap in H as (? & H & ?); discriminate H);
  repeat (apply elem_of_cons in H as [H|H]; [try discriminate H|]);
  try (by apply elem_of_nil in H).

(** The part of a run of [InstallRouter] that assembles the certificate
    bundle: a run either ends before it, with no file call and no delegate
    call, or generates the certificate, runs [catFiles] on the bundle and
    its three sources, and returns the error of [catFiles] or runs the
    delegate on the bundle. *)
Lemma InstallRouter_bundle fuel k f configDir tag hostIP out w r st' :
  InstallRouter fuel k f configDir tag hostIP out (mkSt w []) = Some (r, st') ->
  let masterDir := filepath_Join configDir "master" in
  let pem := filepath_Join masterDir "router.pem" in
  let srcs := [filepath_Join masterDir "router.crt";
               filepath_Join masterDir "router.key";
               filepath_Join masterDir "ca.crt"] in
  Forall (fun ev => is_Fs ev = false /\ is_RunCmdRouter ev = false) (log st')
  \/ exists pre opts s4 rc fsst,
       catFiles fuel pem srcs (mkFsSt s4 []) = Some (rc, fsst)
       /\ Forall (fun ev => is_Fs ev = false /\ is_RunCmdRouter ev = false) pre
       /\ EvCreateServerCert opts None ∈ pre
       /\ srcs = [cc_CertFile opts; cc_KeyFile opts;
                  sg_CertFile (cc_SignerCertOptions opts)]
       /\ ((exists e, rc = Some e /\ r = Some e
                      /\ log st' = pre ++ (EvFs <$> fslog fsst))
           \/ (rc = None
               /\ exists cmd cfg output,
                    rt_DefaultCertificate cfg = pem
                    /\ log st'
                       = pre ++ (EvFs <$> fslog fsst)
                           ++ [EvRunCmdRouter cmd cfg [] r;
                               EvGlog 4 ("Router command output:" +:+ nl +:+ output)])).
Proof.
  intros Hrun masterDir pem srcs. subst masterDir pem srcs.
  unfold InstallRouter in Hrun.
  next_call Hrun.
  match type of Hrun with context [res_err ?x] => destruct x as [svc|pe] end;
    simpl in *.
  { apply ret_Some in Hrun as [<- <-]. left. simpl. by repeat constructor. }
  next_call Hrun.
  match type of Hrun with context [match ?x with Ok _ => _ | Fail _ => _ end] =>
    destruct x as [?|e] end.
  2:{ apply ret_Some in Hrun as [<- <-]. left. simpl. by repeat constructor. }
  next_call Hrun.
  match type of Hrun with context [match ?x with Ok _ => _ | Fail _ => _ end] =>
    destruct x as [scc|e] end.
  2:{ apply ret_Some in Hrun as [<- <-]. left. simpl. by repeat constructor. }
  next_call Hrun.
  match type of Hrun with context [match ?x with Ok _ => _ | Fail _ => _ end] =>
    destruct x as [?|e] end.
  2:{ apply ret_Some in Hrun as [<- <-]. left. simpl. by repeat constructor. }
  next_call Hrun.
  match type of Hrun with context [match ?x with Some _ => _ | None => _ end] =>
    destruct x as [e|] end.
  { apply ret_Some in Hrun as [<- <-]. left. simpl. by repeat constructor. }
  next_call Hrun. right.
  match goal with
  | E : catFiles _ _ _ (mkFsSt ?s4 []) = Some (?x, ?fst) |- _ =>
      rename E into Hcat; destruct x as [e|]
  end.
  - apply ret_Some in Hrun as [<- <-]. simpl.
    match goal with
    | |- context [?a :: ?b :: ?c :: ?d :: EvCreateServerCert ?o None :: _] =>
        exists [a; b; c; d; EvCreateServerCert o None], o
    end.
    eexists _, _, _. split; [exact Hcat|].
    split; [by repeat constructor|]. split; [find_in_list|]. split; [reflexivity|].
    left. by exists e.
  - next_call Hrun. next_call Hrun. apply ret_Some in Hrun as [<- <-]. simpl.
    match goal with
    | |- context [?a :: ?b :: ?c :: ?d :: EvCreateServerCert ?o None :: _] =>
        exists [a; b; c; d; EvCreateServerCert o None], o
    end.
    eexists _, _, _. split; [exact Hcat|].
    split; [by repeat constructor|]. split; [find_in_list|]. split; [reflexivity|].
    right. split; [done|]. eexists _, _, _. split; [|by rewrite <- app_assoc]. done.
Qed.

(** X8: [InstallRouter] stops at the first of its preparing steps that
    fails.  When creating the service account, reading the policy, writing
    it or generating the certificate fails, that call is the last one made
    and the error returned wraps the call's error under the message of the
    step. *)
Theorem InstallRouter_stops_at_failed_step
    fuel k f configDir tag hostIP out w r st' :
  InstallRouter fuel k f configDir tag hostIP out (mkSt w []) = Some (r, st') ->
  (forall ns sa e,
     EvServiceAccountsCreate ns sa (Some e) ∈ log st' ->
     r = Some (BootstrapError "cannot create router service account" e)
     /\ last (log st') = Some (EvServiceAccountsCreate ns sa (Some e)))
  /\ (forall name e,
        EvSCCGet name (Fail e) ∈ log st' ->
        r = Some (BootstrapError "cannot retrieve privileged SCC" e)
        /\ last (log st') = Some (EvSCCGet name (Fail e)))
  /\ (forall scc e,
        EvSCCUpdate scc (Some e) ∈ log st' ->
        r = Some (BootstrapError "cannot update privileged SCC" e)
        /\ last (log st') = Some (EvSCCUpdate scc (Some e)))
  /\ (forall opts e,
        EvCreateServerCert opts (Some e) ∈ log st' ->
        r = Some (BootstrapError "cannot create router cert" e)
        /\ last (log st') = Some (EvCreateServerCert opts (Some e))).
Proof.
  intros Hrun.
  apply InstallRouter_cases in Hrun as (rest & Hlog & Hcases).
  rewrite Hlog. clear Hlog.
  destruct (res_err _) as [pe|];
    [|destruct Hcases as (_ & -> & _);
      repeat split; intros; match goal with Hin : _ ∈ _ |- _ => split_log Hin end].
  destruct Hcases as [(e0 & -> & ->)|[(e0 & -> & ->)|[(scc0 & e0 & -> & ->)
    |[(scc0 & opts0 & e0 & -> & ->)|[(scc0 & opts0 & fsevs & e0 & ev & _ & _ & _ & ->)
    |(scc0 & opts0 & fsevs & cmd0 & cfg0 & output & _ & ->)]]]]];
    repeat split; intros;
    match goal with Hin : _ ∈ _ |- _ => split_log Hin end;
    by simplify_eq.
Qed.

(** X9: what the delegate returns is what the installer returns.  When
    [InstallRegistry] or [InstallRouter] has run its delegate, it returns
    the delegate's error as it is, nil included, and the delegate was given
    no arguments. *)
Theorem install_returns_delegate_error fuel k f configDir tag hostIP out w :
  (forall r st' cmd cfg args err,
     InstallRegistry k f configDir tag out (mkSt w []) = Some (r, st') ->
     EvRunCmdRegistry cmd cfg args err ∈ log st' ->
     r = err /\ args = [])
  /\ (forall r st' cmd cfg args err,
        InstallRouter fuel k f configDir tag hostIP out (mkSt w []) = Some (r, st') ->
        EvRunCmdRouter cmd cfg args err ∈ log st' ->
        r = err /\ args = []).
Proof.
  split; intros r st' cmd cfg args err Hrun Hin.
  - destruct (InstallRegistry_cases k f configDir tag out w)
      as (r0 & st0 & Hrun0 & Hcases).
    rewrite Hrun in Hrun0. simplify_eq.
    destruct Hcases as [(svc & c1 & _ & _ & ->)
                       |[(e & c1 & _ & _ & _ & ->)
                        |(e & c1 & cmd0 & cfg0 & output & _ & _ & _ & _ & Hlog)]].
    + split_log Hin.
    + split_log Hin.
    + rewrite Hlog in Hin. split_log Hin. by simplify_eq.
  - apply InstallRouter_cases in Hrun as (rest & Hlog & Hcases).
    rewrite Hlog in Hin. clear Hlog.
    apply elem_of_cons in Hin as [Hin|Hin]; [discriminate|].
    destruct (res_err _) as [pe|].
    + destruct Hcases as [(e & _ & ->)|[(e & _ & ->)|[(scc & e & _ & ->)
        |[(scc & opts & e & _ & ->)|[(scc & opts & fsevs & e & ev & _ & _ & _ & ->)
        |(scc & opts & fsevs & cmd0 & cfg0 & output & Hfmt & ->)]]]]];
        split_log Hin.
      by simplify_eq.
    + destruct Hcases as (_ & -> & _). by apply elem_of_nil in Hin.
Qed.

(** X10: nothing is tried twice.  In every run of [InstallRouter], however
    it ends, the service account is created at most once, the policy read
    and written at most once, the certificate generated at most once and
    the delegate run at most once; in every run of [InstallRegistry] the
    delegate is run at most once, and no service account or policy call is
    made at all. *)
Theorem install_makes_each_call_at_most_once
    fuel k f configDir tag hostIP out w :
  (forall r st',
     InstallRouter fuel k f configDir tag hostIP out (mkSt w []) = Some (r, st') ->
     calls is_ServiceAccountsCreate (log st') <= 1
     /\ calls is_SCCGet (log st') <= 1
     /\ calls is_SCCUpdate (log st') <= 1
     /\ calls is_CreateServerCert (log st') <= 1
     /\ calls is_RunCmdRouter (log st') <= 1)
  /\ (forall r st',
        InstallRegistry k f configDir tag out (mkSt w []) = Some (r, st') ->
        calls is_RunCmdRegistry (log st') <= 1
        /\ calls is_ServiceAccountsCreate (log st') = 0
        /\ calls is_SCCGet (log st') = 0
        /\ calls is_SCCUpdate (log st') = 0).
Proof.
  split; intros r st' Hrun.
  - apply InstallRouter_cases in Hrun as (rest & Hlog & Hcases).
    rewrite Hlog. clear Hlog.
    destruct (res_err _) as [pe|];
      [|destruct Hcases as (_ & -> & _); unfold calls; simpl; lia].
    destruct Hcases as [(e0 & _ & ->)|[(e0 & _ & ->)|[(scc0 & e0 & _ & ->)
      |[(scc0 & opts0 & e0 & _ & ->)|[(scc0 & opts0 & fsevs & e0 & ev & _ & _ & _ & ->)
      |(scc0 & opts0 & fsevs & cmd0 & cfg0 & output & _ & ->)]]]]];
      simpl; rewrite ?calls_cons, ?calls_app, ?calls_fs by done;
      unfold calls; simpl; lia.
  - destruct (InstallRegistry_cases k f configDir tag out w)
      as (r0 & st0 & Hrun0 & Hcases).
    rewrite Hrun in Hrun0. simplify_eq.
    destruct Hcases as [(svc & c1 & _ & _ & ->)
                       |[(e & c1 & _ & _ & _ & ->)
                        |(e & c1 & cmd0 & cfg0 & output & _ & _ & _ & _ & ->)]];
      unfold calls; simpl; lia.
Qed.

Lemma occurrences_app u (l1 l2 : list string) :
  occurrences u (l1 ++ l2) = occurrences u l1 + occurrences u l2.
Proof. unfold occurrences. by rewrite List.filter_app, length_app. Qed.

Lemma occurrences_snoc u (l : list string) v :
  occurrences u (l ++ [v])
  = occurrences u l + (if bool_decide (v = u) then 1 else 0).
Proof.
  rewrite occurrences_app. unfold occurrences at 2. simpl.
  by destruct (bool_decide (v = u)).
Qed.

(** X11: the router's identity is appended to the policy without a look
    for it in the list.  In the list [InstallRouter] writes back, every
    identity occurs as often as in the list read, and the router's identity
    once more: if it was authorized already, it is in the list twice. *)
Theorem router_grant_appends_without_check
    fuel k f configDir tag hostIP out w r st' scc' err u :
  InstallRouter fuel k f configDir tag hostIP out (mkSt w []) = Some (r, st') ->
  EvSCCUpdate scc' err ∈ log st' ->
  exists scc,
    EvSCCGet "privileged" (Ok scc) ∈ log st'
    /\ occurrences u (scc_Users scc')
       = occurrences u (scc_Users scc)
         + (if bool_decide (MakeUsername "default" "router" = u) then 1 else 0).
Proof.
  intros Hrun Hin.
  apply InstallRouter_cases in Hrun as (rest & Hlog & Hcases).
  rewrite Hlog in *. clear Hlog.
  apply elem_of_cons in Hin as [Hin|Hin]; [discriminate|].
  destruct (res_err _) as [pe|];
    [|destruct Hcases as (_ & -> & _); by apply elem_of_nil in Hin].
  destruct Hcases as [(e & _ & ->)|[(e & _ & ->)|[(scc & e & _ & ->)
    |[(scc & opts & e & _ & ->)|[(scc & opts & fsevs & e & ev & _ & _ & _ & ->)
    |(scc & opts & fsevs & cmd0 & cfg0 & output & Hfmt & ->)]]]]];
    split_log Hin; simplify_eq;
    (exists scc; split; [find_in_list | apply occurrences_snoc]).
Qed.

Lemma calls_none p (l : list Event) :
  Forall (fun ev => p ev = false) l -> calls p l = 0.
Proof.
  intros Hall. unfold calls. induction Hall as [|ev l Hev _ IH]; [done|].
  simpl. by rewrite Hev.
Qed.

Lemma not_in_prefix (pre : list Event) ev :
  Forall (fun ev => is_Fs ev = false /\ is_RunCmdRouter ev = false) pre ->
  ev ∈ pre -> is_Fs ev = false /\ is_RunCmdRouter ev = false.
Proof. intros Hall Hin. rewrite Forall_forall in Hall. by apply Hall. Qed.

(** X12: an error of the bundle's assembly comes back as it is.  When
    creating the bundle or copying a source into it fails, [InstallRouter]
    returns that call's error, not wrapped, and does not run the
    delegate. *)
Theorem InstallRouter_returns_bundle_error
    fuel k f configDir tag hostIP out w r st' :
  InstallRouter fuel k f configDir tag hostIP out (mkSt w []) = Some (r, st') ->
  (forall p e,
     EvFs (FsCreate p (Some e)) ∈ log st' ->
     r = Some e /\ calls is_RunCmdRouter (log st') = 0)
  /\ (forall d name n e,
        EvFs (FsCopy d name n (Some e)) ∈ log st' ->
        r = Some e /\ calls is_RunCmdRouter (log st') = 0).
Proof.
  intros Hrun.
  assert (Hfail : forall fe e,
    (exists p, fe = FsCreate p (Some e)) \/ (exists d name n, fe = FsCopy d name n (Some e)) ->
    EvFs fe ∈ log st' ->
    r = Some e /\ calls is_RunCmdRouter (log st') = 0).
  { intros fe e Hfe Hin.
    apply InstallRouter_bundle in Hrun
      as [Hall|(pre & opts & s4 & rc & fsst & Hcat & Hpre & _ & _ & Hend)].
    { rewrite Forall_forall in Hall. by destruct (Hall _ Hin). }
    apply catFiles_calls in Hcat as (Hcreate & Hcopy & _).
    assert (Hrc : fe ∈ fslog fsst -> rc = Some e).
    { intros Hfs. destruct Hfe as [(p & ->)|(d & name & n & ->)]; eauto. }
    destruct Hend as [(e0 & -> & -> & Hlog)|(-> & cmd & cfg & output & _ & Hlog)];
      rewrite Hlog in *.
    - apply elem_of_app in Hin as [Hin|Hin];
        [by destruct (not_in_prefix _ _ Hpre Hin)|].
      apply list_elem_of_fmap in Hin as (fe' & [= <-] & Hin).
      split; [by apply Hrc|].
      rewrite calls_app, calls_fs by done. rewrite calls_none; [done|].
      eapply Forall_impl; [exact Hpre|]. by intros ev [_ ?].
    - apply elem_of_app in Hin as [Hin|Hin];
        [by destruct (not_in_prefix _ _ Hpre Hin)|].
      apply elem_of_app in Hin as [Hin|Hin]; [|split_log Hin].
      apply list_elem_of_fmap in Hin as (fe' & [= <-] & Hin).
      by specialize (Hrc Hin). }
  split.
  - intros p e. apply Hfail. left. by exists p.
  - intros d name n e. apply Hfail. right. by exists d, name, n.
Qed.

(** X13: the bundle the router is configured with is the one the installer
    has assembled.  When the delegate is run, its configuration names as
    default certificate the file [router.pem] of the master directory,
    which the installer has created, and the only files opened to fill it
    are the certificate and the key that were generated and the signer's
    certificate, as named in the options of the certificate generation. *)
Theorem InstallRouter_bundle_paths
    fuel k f configDir tag hostIP out w r st' cmd cfg args err :
  InstallRouter fuel k f configDir tag hostIP out (mkSt w []) = Some (r, st') ->
  EvRunCmdRouter cmd cfg args err ∈ log st' ->
  rt_DefaultCertificate cfg
  = filepath_Join (filepath_Join configDir "master") "router.pem"
  /\ EvFs (FsCreate (rt_DefaultCertificate cfg) None) ∈ log st'
  /\ exists opts,
       EvCreateServerCert opts None ∈ log st'
       /\ forall name oerr,
            EvFs (FsOpen name oerr) ∈ log st' ->
            name ∈ [cc_CertFile opts; cc_KeyFile opts;
                    sg_CertFile (cc_SignerCertOptions opts)].
Proof.
  intros Hrun Hin.
  apply InstallRouter_bundle in Hrun
    as [Hall|(pre & opts & s4 & rc & fsst & Hcat & Hpre & Hopts & Hsrcs & Hend)].
  { rewrite Forall_forall in Hall. by destruct (Hall _ Hin). }
  apply catFiles_calls in Hcat as (_ & _ & _ & _ & Hopen & Hcreated).
  destruct Hend as [(e0 & -> & -> & Hlog)|(-> & cmd0 & cfg0 & output & Hpem & Hlog)];
    rewrite Hlog in *.
  - apply elem_of_app in Hin as [Hin|Hin];
      [by destruct (not_in_prefix _ _ Hpre Hin)|].
    by apply list_elem_of_fmap in Hin as (fe' & [=] & _).
  - apply elem_of_app in Hin as [Hin|Hin];
      [by destruct (not_in_prefix _ _ Hpre Hin)|].
    apply elem_of_app in Hin as [Hin|Hin];
      [by apply list_elem_of_fmap in Hin as (fe' & [=] & _)|].
    split_log Hin. injection Hin as -> -> -> ->. split; [done|]. split.
    + apply elem_of_app. right. apply elem_of_app. left.
      apply list_elem_of_fmap. eexists. split; [reflexivity|].
      rewrite Hpem. by apply Hcreated.
    + exists opts. split; [apply elem_of_app; by left|].
      intros name oerr Hfs. rewrite <- Hsrcs.
      apply elem_of_app in Hfs as [Hfs|Hfs];
        [by destruct (not_in_prefix _ _ Hpre Hfs)|].
      apply elem_of_app in Hfs as [Hfs|Hfs]; [|split_log Hfs].
      apply list_elem_of_fmap in Hfs as (fe' & [= <-] & Hfs).
      by apply (Hopen _ _ Hfs).
Qed.

(** X14: a source of the bundle that cannot be opened does not stop the
    installation.  [catFiles] returns nil at the failed open, so
    [InstallRouter] goes on to run the delegate, on the bundle as far as it
    was written, and returns what the delegate returns. *)
Theorem InstallRouter_runs_delegate_after_failed_open
    fuel k f configDir tag hostIP out w r st' name e :
  InstallRouter fuel k f configDir tag hostIP out (mkSt w []) = Some (r, st') ->
  EvFs (FsOpen name (Some e)) ∈ log st' ->
  exists cmd cfg, EvRunCmdRouter cmd cfg [] r ∈ log st'.
Proof.
  intros Hrun Hin.
  apply InstallRouter_bundle in Hrun
    as [Hall|(pre & opts & s4 & rc & fsst & Hcat & Hpre & _ & _ & Hend)].
  { rewrite Forall_forall in Hall. by destruct (Hall _ Hin). }
  apply catFiles_calls in Hcat as (_ & _ & Hopen & _).
  destruct Hend as [(e0 & -> & -> & Hlog)|(-> & cmd0 & cfg0 & output & Hpem & Hlog)];
    rewrite Hlog in *.
  - apply elem_of_app in Hin as [Hin|Hin];
      [by destruct (not_in_prefix _ _ Hpre Hin)|].
    apply list_elem_of_fmap in Hin as (fe' & [= <-] & Hin).
    by specialize (Hopen _ _ Hin).
  - exists cmd0, cfg0. apply elem_of_app. right. apply elem_of_app. right.
    apply list_elem_of_here.
Qed.

End InstallerSteps.

(** ** More runs on the cluster held in memory *)

Lemma InstallRouter_stops_at_failed_step_witness :
  @EvServiceAccountsCreate fakeTypes "default" {| sa_Name := "router" |}
    (Some (StatusError StatusReasonAlreadyExists "router"))
    ∈ log (fake_router_end_on fake_fs fake_cluster_with_account)
  /\ Some (BootstrapError "cannot create router service account"
             (StatusError StatusReasonAlreadyExists "router"))
     = Some (BootstrapError "cannot create router service account"
               (StatusError StatusReasonAlreadyExists "router"))
  /\ last (log (fake_router_end_on fake_fs fake_cluster_with_account))
     = Some (@EvServiceAccountsCreate fakeTypes "default" {| sa_Name := "router" |}
               (Some (StatusError StatusReasonAlreadyExists "router"))).
Proof.
  assert (Hrun :
    fake_InstallRouter 8 "/cfg" "v1.3" "10.0.0.1" tt
      (fake_start (@mkWorld fakeTypes fake_fs fake_cluster_with_account))
    = Some (Some (BootstrapError "cannot create router service account"
                    (StatusError StatusReasonAlreadyExists "router")),
            fake_router_end_on fake_fs fake_cluster_with_account))
    by (vm_compute; reflexivity).
  split; [in_list|].
  destruct (@InstallRouter_stops_at_failed_step fakeTypes fakeExternals
              8 fakeClient tt "/cfg" "v1.3" "10.0.0.1" tt _ _ _ Hrun)
    as (Haccount & _).
  apply Haccount. in_list.
Defined.

Lemma install_returns_delegate_error_witness :
  (@EvRunCmdRegistry fakeTypes "registry" fake_registry_cfg [] None
     ∈ log fake_registry_end
   /\ @None Err = None /\ @nil string = [])
  /\ (@EvRunCmdRouter fakeTypes "router" fake_router_cfg [] None
        ∈ log fake_router_end
      /\ @None Err = None /\ @nil string = []).
Proof.
  destruct (@install_returns_delegate_error fakeTypes fakeExternals
              8 fakeClient tt "/cfg" "v1.3" "10.0.0.1" tt (fake_world None))
    as [Hregistry Hrouter].
  split; (split; [in_list|]).
  - apply (Hregistry None fake_registry_end "registry" fake_registry_cfg [] None);
      [vm_compute; reflexivity | in_list].
  - apply (Hrouter None fake_router_end "router" fake_router_cfg [] None);
      [vm_compute; reflexivity | in_list].
Defined.

Lemma install_makes_each_call_at_most_once_witness :
  (calls is_ServiceAccountsCreate
     (log (fake_router_end_on fake_fs_unreadable_ca (fake_cluster None))) <= 1
   /\ calls is_SCCGet
        (log (fake_router_end_on fake_fs_unreadable_ca (fake_cluster None))) <= 1
   /\ calls is_SCCUpdate
        (log (fake_router_end_on fake_fs_unreadable_ca (fake_cluster None))) <= 1
   /\ calls is_CreateServerCert
        (log (fake_router_end_on fake_fs_unreadable_ca (fake_cluster None))) <= 1
   /\ calls is_RunCmdRouter
        (log (fake_router_end_on fake_fs_unreadable_ca (fake_cluster None))) <= 1)
  /\ (calls is_RunCmdRegistry (log fake_registry_end) <= 1
      /\ calls is_ServiceAccountsCreate (log fake_registry_end) = 0
      /\ calls is_SCCGet (log fake_registry_end) = 0
      /\ calls is_SCCUpdate (log fake_registry_end) = 0).
Proof.
  split.
  - destruct (@install_makes_each_call_at_most_once fakeTypes fakeExternals
                8 fakeClient tt "/cfg" "v1.3" "10.0.0.1" tt
                (@mkWorld fakeTypes fake_fs_unreadable_ca (fake_cluster None)))
      as [Hrouter _].
    apply (Hrouter (Some (PathError "read" "/cfg/master/ca.crt" EIO))).
    vm_compute. reflexivity.
  - destruct (@install_makes_each_call_at_most_once fakeTypes fakeExternals
                8 fakeClient tt "/cfg" "v1.3" "10.0.0.1" tt (fake_world None))
      as [_ Hregistry].
    apply (Hregistry None). vm_compute. reflexivity.
Defined.

Lemma router_grant_appends_without_check_witness :
  occurrences "system:serviceaccount:default:router" (scc_Users fake_granted_twice) = 2
  /\ exists scc,
       @EvSCCGet fakeTypes "privileged" (Ok scc)
         ∈ log (fake_router_end_on fake_fs fake_cluster_granted)
       /\ occurrences "system:serviceaccount:default:router"
            (scc_Users fake_granted_twice)
          = occurrences "system:serviceaccount:default:router" (scc_Users scc)
            + (if bool_decide (MakeUsername "default" "router"
                               = "system:serviceaccount:default:router")
               then 1 else 0).
Proof.
  split; [reflexivity|].
  apply (@router_grant_appends_without_check fakeTypes fakeExternals
           8 fakeClient tt "/cfg" "v1.3" "10.0.0.1" tt
           (@mkWorld fakeTypes fake_fs fake_cluster_granted)
           None (fake_router_end_on fake_fs fake_cluster_granted)
           fake_granted_twice None).
  - vm_compute. reflexivity.
  - in_list.
Defined.

Lemma InstallRouter_returns_bundle_error_witness :
  @EvFs fakeTypes
    (FsCopy "/cfg/master/router.pem" "/cfg/master/ca.crt" 0
       (Some (PathError "read" "/cfg/master/ca.crt" EIO)))
    ∈ log (fake_router_end_on fake_fs_unreadable_ca (fake_cluster None))
  /\ Some (PathError "read" "/cfg/master/ca.crt" EIO)
     = Some (PathError "read" "/cfg/master/ca.crt" EIO)
  /\ calls is_RunCmdRouter
       (log (fake_router_end_on fake_fs_unreadable_ca (fake_cluster None))) = 0.
Proof.
  assert (Hrun :
    fake_InstallRouter 8 "/cfg" "v1.3" "10.0.0.1" tt
      (fake_start (@mkWorld fakeTypes fake_fs_unreadable_ca (fake_cluster None)))
    = Some (Some (PathError "read" "/cfg/master/ca.crt" EIO),
            fake_router_end_on fake_fs_unreadable_ca (fake_cluster None)))
    by (vm_compute; reflexivity).
  split; [in_list|].
  destruct (@InstallRouter_returns_bundle_error fakeTypes fakeExternals
              8 fakeClient tt "/cfg" "v1.3" "10.0.0.1" tt _ _ _ Hrun)
    as [_ Hcopy].
  apply (Hcopy "/cfg/master/router.pem" "/cfg/master/ca.crt" 0). in_list.
Defined.

Lemma InstallRouter_bundle_paths_witness :
  rt_DefaultCertificate fake_router_cfg = "/cfg" +:+ "/" +:+ "master" +:+ "/" +:+ "router.pem"
  /\ @EvFs fakeTypes (FsCreate (rt_DefaultCertificate fake_router_cfg) None)
       ∈ log fake_router_end
  /\ exists opts,
       @EvCreateServerCert fakeTypes opts None ∈ log fake_router_end
       /\ forall name oerr,
            @EvFs fakeTypes (FsOpen name oerr) ∈ log fake_router_end ->
            name ∈ [cc_CertFile opts; cc_KeyFile opts;
                    sg_CertFile (cc_SignerCertOptions opts)].
Proof.
  apply (@InstallRouter_bundle_paths fakeTypes fakeExternals
           8 fakeClient tt "/cfg" "v1.3" "10.0.0.1" tt (fake_world None)
           None fake_router_end "router" fake_router_cfg [] None).
  - vm_compute. reflexivity.
  - in_list.
Defined.

Lemma InstallRouter_runs_delegate_after_failed_open_witness :
  @EvFs fakeTypes
    (FsOpen "/cfg/master/router.key"
       (Some (PathError "open" "/cfg/master/router.key" EACCES)))
    ∈ log (fake_router_end_on fake_fs_key_denied (fake_cluster None))
  /\ files (w_fs (world (fake_router_end_on fake_fs_key_denied (fake_cluster None))))
       !! "/cfg/master/router.pem" = Some (bytes_of "CERT")
  /\ exists cmd cfg,
       @EvRunCmdRouter fakeTypes cmd cfg [] None
         ∈ log (fake_router_end_on fake_fs_key_denied (fake_cluster None)).
Proof.
  split; [in_list|]. split; [vm_compute; reflexivity|].
  apply (@InstallRouter_runs_delegate_after_failed_open fakeTypes fakeExternals
           8 fakeClient tt "/cfg" "v1.3" "10.0.0.1" tt
           (@mkWorld fakeTypes fake_fs_key_denied (fake_cluster None))
           None (fake_router_end_on fake_fs_key_denied (fake_cluster None))
           "/cfg/master/router.key"
           (PathError "open" "/cfg/master/router.key" EACCES)).
  - vm_compute. reflexivity.
  - in_list.
Defined.

(** ** The image format *)

Lemma substring_all (s : string) : String.substring 0 (String.length s) s = s.
Proof. induction s as [|c s IH]; [done|]. simpl. by rewrite IH. Qed.

(** X15: the tag can be read back from the image format: the format
    begins with the template and the tag is all that follows, so formats
    made from different tags differ. *)
Theorem imageFormat_keeps_tag (tag1 tag2 : string) :
  String.prefix "openshift/origin-${component}:" (imageFormat tag1) = true
  /\ String.substring 30 (String.length tag1) (imageFormat tag1) = tag1
  /\ (imageFormat tag1 = imageFormat tag2 -> tag1 = tag2).
Proof.
  split; [|split].
  - unfold imageFormat. simpl. by destruct tag1.
  - unfold imageFormat. simpl. apply substring_all.
  - unfold imageFormat. simpl. intros Heq. by simplify_eq.
Qed.

Lemma imageFormat_keeps_tag_witness :
  String.prefix "openshift/origin-${component}:" (imageFormat "v1.3") = true
  /\ String.substring 30 (String.length "v1.3") (imageFormat "v1.3") = "v1.3"
  /\ "v1.3" = "v1.3".
Proof.
  destruct (imageFormat_keeps_tag "v1.3" "v1.3") as (Hprefix & Hback & Hinj).
  split; [exact Hprefix|]. split; [exact Hback|]. apply Hinj. reflexivity.
Defined.

(** ** The event scan *)

Lemma prefix_app (sub s t : string) :
  String.prefix sub s = true -> String.prefix sub (s +:+ t) = true.
Proof.
  revert s. induction sub as [|c sub IH]; intros s Hp; [by destruct s; destruct t|].
  destruct s as [|c' s]; [done|]. simpl in *.
  destruct (Ascii.ascii_dec c c'); [by apply IH|done].
Qed.

Lemma strings_Contains_app (s t sub : string) :
  strings_Contains s sub = true -> strings_Contains (s +:+ t) sub = true.
Proof.
  induction s as [|c s IH]; intros Hc.
  - simpl in Hc. destruct sub; [|done]. by destruct t.
  - cbn [strings_Contains] in Hc.
    change (String c s +:+ t) with (String c (s +:+ t)).
    cbn [strings_Contains].
    destruct (String.prefix sub (String c s)) eqn:Ep.
    + change (String c (s +:+ t)) with (String c s +:+ t).
      by rewrite (prefix_app _ _ t Ep).
    + destruct (String.prefix sub (String c (s +:+ t))); [done|]. by apply IH.
Qed.

Lemma append_cons c (a t : string) : String c a +:+ t = String c (a +:+ t).
Proof. reflexivity. Qed.

Lemma prefix_occurs (a b : string) :
  String.prefix a b = true <-> exists t, b = a +:+ t.
Proof.
  revert b. induction a as [|c a IH]; intros b.
  - split; [intros _; by exists b | by destruct b].
  - destruct b as [|c' b]; simpl.
    + split; [done|]. intros [t Ht]. by rewrite append_cons in Ht.
    + destruct (Ascii.ascii_dec c c') as [->|Hne].
      * rewrite IH. split; intros [t Ht]; exists t.
        -- by rewrite append_cons, Ht.
        -- rewrite append_cons in Ht. by simplify_eq.
      * split; [done|]. intros [t Ht]. rewrite append_cons in Ht. by simplify_eq.
Qed.

(** [strings_Contains] finds the places a string occurs at. *)
Lemma strings_Contains_occurs (s sub : string) :
  strings_Contains s sub = true <-> exists before after, s = before +:+ sub +:+ after.
Proof.
  induction s as [|c s IH].
  - cbn [strings_Contains]. destruct (String.prefix sub "") eqn:Ep.
    + split; [intros _|done]. apply prefix_occurs in Ep as [t Ht]. by exists "", t.
    + split; [done|]. intros ([|??] & after & Heq); [|by rewrite append_cons in Heq].
      assert (String.prefix sub "" = true); [|congruence].
      apply prefix_occurs. by exists after.
  - cbn [strings_Contains]. destruct (String.prefix sub (String c s)) eqn:Ep.
    + split; [intros _|done]. apply prefix_occurs in Ep as [t Ht]. by exists "", t.
    + rewrite IH. split.
      * intros (before & after & ->). by exists (String c before), after.
      * intros ([|c' before] & after & Heq).
        -- assert (String.prefix sub (String c s) = true); [|congruence].
           apply prefix_occurs. by exists after.
        -- rewrite append_cons in Heq. simplify_eq. by exists before, after.
Qed.

Lemma scanEvents_acc items : forall acc,
  scanEvents items acc
  = acc ++ (denialString
              <$> filter (fun ev => strings_Contains (ce_Message ev) denialText = true)
                    items).
Proof.
  induction items as [|ev items IH]; intros acc; [by rewrite app_nil_r|].
  cbn [scanEvents]. rewrite filter_cons. case_decide as Hc.
  - rewrite Hc. cbn [negb]. rewrite IH, fmap_cons, <- app_assoc. done.
  - apply not_true_is_false in Hc. rewrite Hc. cbn [negb]. apply IH.
Qed.

(** X16: the test reports the denials it finds and nothing else: when
    the events can be listed, it ends in [Flakef] on the summary lines of
    the events whose message contains the denial text, one line each, in
    the order listed and joined by line feeds; events of other kinds are
    passed over, and with no denial among the events the format is the
    empty string. *)
Theorem sccDenialSpec_reports_denials error_text (items : list CoreEvent) :
  sccDenialSpec error_text (Ok items)
  = SpecFlaked
      (strings_Join
         (denialString
            <$> filter (fun ev => strings_Contains (ce_Message ev) denialText = true)
                  items) nl)
  /\ length (scanEvents items [])
     = length (filter (fun ev => strings_Contains (ce_Message ev) denialText = true)
                 items)
  /\ (Forall (fun ev => strings_Contains (ce_Message ev) denialText = false) items ->
      sccDenialSpec error_text (Ok items) = SpecFlaked EmptyString).
Proof.
  unfold sccDenialSpec. rewrite scanEvents_acc. simpl.
  split; [done|]. split; [by rewrite length_fmap|].
  intros Hnone. induction Hnone as [|ev items Hev _ IH]; [done|].
  rewrite filter_cons, decide_False by congruence. exact IH.
Qed.

Lemma sccDenialSpec_reports_denials_witness :
  (sccDenialSpec (fun _ => EmptyString) (Ok [pulled_event; denial_event; pulled_event])
   = SpecFlaked
       (strings_Join
          (denialString
             <$> filter (fun ev => strings_Contains (ce_Message ev) denialText = true)
                   [pulled_event; denial_event; pulled_event]) nl)
   /\ length (scanEvents [pulled_event; denial_event; pulled_event] [])
      = length (filter (fun ev => strings_Contains (ce_Message ev) denialText = true)
                  [pulled_event; denial_event; pulled_event]))
  /\ sccDenialSpec (fun _ => EmptyString) (Ok [pulled_event; pulled_event])
     = SpecFlaked EmptyString.
Proof.
  split.
  - destruct (sccDenialSpec_reports_denials (fun _ => EmptyString)
                [pulled_event; denial_event; pulled_event]) as (Hfmt & Hlen & _).
    by split.
  - destruct (sccDenialSpec_reports_denials (fun _ => EmptyString)
                [pulled_event; pulled_event]) as (_ & _ & Hnone).
    apply Hnone. repeat constructor.
Defined.

(** A scan in full: one denial among three events gives one line. *)
Example scanEvents_one_denial :
  scanEvents [pulled_event; denial_event; pulled_event] []
  = ["Error creating: pods web- is forbidden: unable to validate against any security context constraint: [] for ReplicaSet.apps/v1/web -n shop happened 12 times"].
Proof. vm_compute. reflexivity. Qed.

(** X17: the scan keeps the lines already collected and adds, behind
    them, one line for each event whose message contains the denial text,
    in the order of the events: the summary line of that event, which
    begins with the event's message and so contains the denial text
    itself. *)
Theorem scanEvents_lines_are_denials (items : list CoreEvent) acc :
  exists added,
    scanEvents items acc = acc ++ added
    /\ Forall2 (fun ev line =>
                  line = denialString ev
                  /\ String.prefix (ce_Message ev) line = true
                  /\ strings_Contains line denialText = true)
         (filter (fun ev => strings_Contains (ce_Message ev) denialText = true) items)
         added.
Proof.
  exists (denialString
            <$> filter (fun ev => strings_Contains (ce_Message ev) denialText = true)
                  items).
  split; [apply scanEvents_acc|].
  assert (Hall : Forall (fun ev => strings_Contains (ce_Message ev) denialText = true)
                   (filter (fun ev => strings_Contains (ce_Message ev) denialText = true)
                      items)).
  { apply Forall_forall. intros ev Hev. by apply list_elem_of_filter in Hev as [? _]. }
  induction Hall as [|ev l Hev _ IH]; [constructor|].
  rewrite fmap_cons. constructor; [|exact IH].
  split; [done|]. split.
  - apply prefix_occurs. unfold denialString. by eexists.
  - unfold denialString. by apply strings_Contains_app.
Qed.
